(** * platform-detector: a shallow embedding of [src/detector.ts] and
    [src/telegram-init-data.ts].

    JavaScript strings are modelled as Rocq [string]s (sequences of 8-bit
    characters; the URL strings, user agents and payloads handled here are
    ASCII, and a string handed to [TextEncoder] is its own byte sequence).
    JavaScript numbers that the code compares (touch points, widths,
    timestamps) are modelled as [Z]. *)

From Stdlib Require Import String Ascii ZArith List Bool Lia.
From Stdlib Require Import Sorting.Permutation Sorting.Sorted.
Import ListNotations.
Open Scope string_scope.
Open Scope bool_scope.

(* ------------------------------------------------------------------ *)
(** ** String primitives used by the detector *)

Module JsString.

(** [String.prototype.toLowerCase] on ASCII characters. *)
Definition lower_char (c : ascii) : ascii :=
  let n := nat_of_ascii c in
  if (65 <=? n)%nat && (n <=? 90)%nat then ascii_of_nat (n + 32) else c.

Fixpoint toLowerCase (s : string) : string :=
  match s with
  | EmptyString => EmptyString
  | String c r => String (lower_char c) (toLowerCase r)
  end.

(** [s.startsWith(p)], written with the prefix first. *)
Fixpoint startsWith (p s : string) : bool :=
  match p, s with
  | EmptyString, _ => true
  | String a p', String b s' => Ascii.eqb a b && startsWith p' s'
  | String _ _, EmptyString => false
  end.

(** [s.includes(p)], which is also what [/p/.test(s)] computes for a
    literal pattern [p]. *)
Fixpoint includes (s p : string) : bool :=
  startsWith p s
  || match s with
     | EmptyString => false
     | String _ s' => includes s' p
     end.

Definition is_digit (c : ascii) : bool :=
  let n := nat_of_ascii c in (48 <=? n)%nat && (n <=? 57)%nat.

(** [/tab\d+/.test(s)]: some position starts with [tab] followed by a digit. *)
Fixpoint test_tab_digits (s : string) : bool :=
  (startsWith "tab" s
   && match String.get 3 s with Some d => is_digit d | None => false end)
  || match s with
     | EmptyString => false
     | String _ s' => test_tab_digits s'
     end.

End JsString.

Import JsString.

(* ------------------------------------------------------------------ *)
(** ** Classifier types (types.ts) *)

Inductive OSType :=
  | OS_ios | OS_android | OS_macos | OS_windows | OS_linux | OS_chromeos
  | OS_unknown.

Inductive DeviceType := Device_mobile | Device_tablet | Device_desktop.

Inductive DomainMode := Domain_app | Domain_tma | Domain_unknown.

Inductive PlatformType := Type_web | Type_pwa | Type_tma | Type_native.

Definition OSType_eqb (a b : OSType) : bool :=
  match a, b with
  | OS_ios, OS_ios | OS_android, OS_android | OS_macos, OS_macos
  | OS_windows, OS_windows | OS_linux, OS_linux
  | OS_chromeos, OS_chromeos | OS_unknown, OS_unknown => true
  | _, _ => false
  end.

Definition DeviceType_eqb (a b : DeviceType) : bool :=
  match a, b with
  | Device_mobile, Device_mobile | Device_tablet, Device_tablet
  | Device_desktop, Device_desktop => true
  | _, _ => false
  end.

Definition DomainMode_eqb (a b : DomainMode) : bool :=
  match a, b with
  | Domain_app, Domain_app | Domain_tma, Domain_tma
  | Domain_unknown, Domain_unknown => true
  | _, _ => false
  end.

(** The navigator and window facts read by [detectOS] and [detectDevice]
    (in a browser context: [performDetection] only calls them once
    [window] is known to exist). *)
Record Navigator := mkNavigator {
  platform : string;          (* navigator.platform *)
  maxTouchPoints : Z;         (* navigator.maxTouchPoints *)
  innerWidth : Z              (* window.innerWidth *)
}.

(* ------------------------------------------------------------------ *)
(** ** OS / device classifier (detector.ts, detectOS and detectDevice) *)

Definition detectOS (nav : Navigator) (userAgent : string) : OSType :=
  let ua := toLowerCase userAgent in
  if includes ua "iphone" || includes ua "ipad" || includes ua "ipod" then OS_ios
  else if String.eqb nav.(platform) "MacIntel" && (1 <? nav.(maxTouchPoints))%Z
  then OS_ios
  else if includes ua "android" then OS_android
  else if includes ua "cros" then OS_chromeos
  else if includes ua "mac os x" || includes ua "macintosh" then OS_macos
  else if includes ua "windows" || includes ua "win32" || includes ua "win64"
  then OS_windows
  else if (includes ua "linux" || includes ua "x11") && negb (includes ua "android")
  then OS_linux
  else OS_unknown.

Definition detectDevice (nav : Navigator) (userAgent : string) (os : OSType)
  : DeviceType :=
  let ua := toLowerCase userAgent in
  let width := nav.(innerWidth) in
  match os with
  | OS_ios =>
      if includes ua "ipad"
         || (String.eqb nav.(platform) "MacIntel" && (1 <? nav.(maxTouchPoints))%Z)
      then Device_tablet else Device_mobile
  | OS_android =>
      if negb (includes ua "mobile") && includes ua "android" then Device_tablet
      else if test_tab_digits ua || includes ua "tablet" then Device_tablet
      else Device_mobile
  | _ =>
      if (0 <? width)%Z && (width <=? 768)%Z && includes ua "mobi"
      then Device_mobile else Device_desktop
  end.

Definition detectDomainMode (hostname : string) : DomainMode :=
  if startsWith "app." hostname then Domain_app
  else if startsWith "tg." hostname then Domain_tma
  else Domain_unknown.

(* ------------------------------------------------------------------ *)
(** ** Ambient evidence read by the platform-presence detectors *)

(** [window.Capacitor]: [cap_isNativePlatform] is [Some b] when the object
    has an [isNativePlatform] method and [b] is what the call returns;
    [cap_getPlatform] likewise for [getPlatform]. *)
Record CapacitorGlobal := mkCapacitorGlobal {
  cap_isNativePlatform : option bool;
  cap_getPlatform : option string
}.

Record NativeEvidence := mkNativeEvidence {
  win_Capacitor : option CapacitorGlobal;  (* 'Capacitor' in window *)
  win_cordova : bool;                       (* 'cordova' in window *)
  win_phonegap : bool;                      (* 'phonegap' in window *)
  html_class_capacitor : bool  (* documentElement.classList.contains('capacitor') *)
}.

(** A Telegram WebApp object (first-party bridge, or the stand-in passed as
    [options.telegramWebApp]). A string field that is absent is [""]
    (both are falsy); [wa_initDataUnsafe] lists the keys of the object. *)
Record WebApp := mkWebApp {
  wa_version : string;
  wa_initData : string;
  wa_initDataUnsafe : option (list string);
  wa_platform : string;
  wa_colorScheme : string
}.

(** What the [@tma.js] helpers of tma-sdk.ts report: [tma_via] is
    [isTelegramViaTmaJs()], [tma_sdk_available] is [isTmaJsSdkAvailable()],
    [tma_sdk_instance] says whether [getTmaJsSdk()] yields an instance and
    [tma_platform] is [getTelegramPlatformFromTmaJs()] ([""] when falsy).
    [win_webApp] is [getTelegramWebApp()]. *)
Record TelegramEvidence := mkTelegramEvidence {
  tma_via : bool;
  tma_sdk_available : bool;
  tma_sdk_instance : bool;
  tma_platform : string;
  win_webApp : option WebApp
}.

Record PwaEvidence := mkPwaEvidence {
  matchMedia : string -> bool;    (* window.matchMedia(q).matches *)
  nav_standalone : option bool;   (* navigator.standalone, when the key exists *)
  wco_visible : bool              (* navigator.windowControlsOverlay?.visible *)
}.

Record Env := mkEnv {
  window_defined : bool;          (* typeof window !== 'undefined' *)
  nav_userAgent : string;
  loc_hostname : string;
  loc_href : string;
  nav : Navigator;
  native : NativeEvidence;
  tg : TelegramEvidence;
  pwa : PwaEvidence
}.

(** [this.options] after the constructor merged the defaults
    ([useClientHints: false, useFeatureDetection: true, cacheTTL: 5000]);
    [""] stands for an absent string option, [None] for an absent value. *)
Record Options := mkOptions {
  opt_userAgent : string;
  opt_hostname : string;
  opt_telegramWebApp : option WebApp;
  opt_useClientHints : option bool;
  opt_cacheTTL : option Z
}.

(** The options record the constructor builds: [{ defaults, ...options }]. *)
Definition construct_options (ua host : string) (w : option WebApp)
    (useClientHints : option bool) (cacheTTL : option Z) : Options :=
  mkOptions ua host w
    (match useClientHints with Some b => Some b | None => Some false end)
    (match cacheTTL with Some t => Some t | None => Some 5000%Z end).

(* ------------------------------------------------------------------ *)
(** ** Platform-presence detectors *)

Definition detectNative (env : Env) : bool :=
  if negb env.(window_defined) then false
  else if match env.(native).(win_Capacitor) with Some _ => true | None => false end then true
  else if env.(native).(win_cordova) || env.(native).(win_phonegap) then true
  else if env.(native).(html_class_capacitor) then true
  else false.

Inductive CapPlatform := Cap_ios | Cap_android | Cap_web | Cap_unknown.

Record CapacitorInfo := mkCapacitorInfo {
  isNativePlatform : bool;
  cap_platform : CapPlatform
}.

Definition getCapacitorInfo (env : Env) : option CapacitorInfo :=
  if negb env.(window_defined) then None else
  match env.(native).(win_Capacitor) with
  | None => None
  | Some c =>
      let isNative := match c.(cap_isNativePlatform) with
                      | Some b => b | None => false end in
      let name := match c.(cap_getPlatform) with
                  | Some n => n | None => "unknown" end in
      let p := if String.eqb name "ios" then Cap_ios
               else if String.eqb name "android" then Cap_android
               else if String.eqb name "web" then Cap_web
               else Cap_unknown in
      Some (mkCapacitorInfo isNative p)
  end.

(** [capacitor?.isNativePlatform === true] *)
Definition capacitor_runtime_flag (c : option CapacitorInfo) : bool :=
  match c with Some i => i.(isNativePlatform) | None => false end.

Definition truthy (s : string) : bool := negb (String.eqb s "").

Definition validateTelegramWebApp (webApp : option WebApp) : bool :=
  match webApp with
  | None => false
  | Some w =>
      if negb (truthy w.(wa_version)) then false else
      let hasInitData :=
        truthy w.(wa_initData)
        || match w.(wa_initDataUnsafe) with
           | Some keys => (0 <? length keys)%nat
           | None => false
           end in
      let hasPlatform :=
        truthy w.(wa_platform) && negb (String.eqb w.(wa_platform) "unknown") in
      let hasColorScheme := truthy w.(wa_colorScheme) in
      if hasInitData then hasPlatform && hasColorScheme
      else hasPlatform && hasColorScheme
  end.

Definition detectTelegram (env : Env) (opts : Options) : bool :=
  if negb env.(window_defined) then false
  else if env.(tg).(tma_via) then true
  else match opts.(opt_telegramWebApp) with
       | Some w => validateTelegramWebApp (Some w)
       | None =>
           match env.(tg).(win_webApp) with
           | None => false
           | Some w => validateTelegramWebApp (Some w)
           end
       end.

Definition or_unknown (s : string) : string := if truthy s then s else "unknown".

(** The [platform] field of [getTelegramInfo()], when it returns a record. *)
Definition getTelegramInfo (env : Env) (opts : Options) : option string :=
  if env.(tg).(tma_sdk_available) && env.(window_defined)
     && env.(tg).(tma_sdk_instance)
  then Some (or_unknown env.(tg).(tma_platform))
  else
    let webApp := match opts.(opt_telegramWebApp) with
                  | Some w => Some w
                  | None => env.(tg).(win_webApp)
                  end in
    match webApp with
    | None => None
    | Some w => Some (or_unknown w.(wa_platform))
    end.

Definition displayModes : list string :=
  ["standalone"; "fullscreen"; "minimal-ui"; "window-controls-overlay"].

Definition detectPWA (env : Env) : bool :=
  if negb env.(window_defined) then false
  else if existsb (fun mode => env.(pwa).(matchMedia) ("(display-mode: " ++ mode ++ ")"))
                  displayModes then true
  else if match env.(pwa).(nav_standalone) with Some true => true | _ => false end
  then true
  else if env.(pwa).(wco_visible) then true
  else false.

(* ------------------------------------------------------------------ *)
(** ** The result record and [performDetection]

    Fields that none of the properties below look at ([environment],
    [screen], [browserFamily], [confidence]) are left out; [capacitor] is
    the [CapacitorInfo] record and [telegram] carries the platform field of
    the [TelegramInfo] record. *)

Record PlatformInfo := mkPlatformInfo {
  type : PlatformType;
  os : OSType;
  device : DeviceType;
  domainMode : DomainMode;
  isPWA : bool;
  isTelegram : bool;
  isNative : bool;
  isWeb : bool;
  isMobile : bool;
  isDesktop : bool;
  isIOS : bool;
  isAndroid : bool;
  isMacOS : bool;
  isWindows : bool;
  isLinux : bool;
  isChromeOS : bool;
  userAgent : string;
  shouldShowTMAWarning : bool;
  capacitor : option CapacitorInfo;
  telegram : option string
}.

Definition createServerSideInfo : PlatformInfo :=
  {| type := Type_web; os := OS_unknown; device := Device_desktop;
     domainMode := Domain_unknown;
     isPWA := false; isTelegram := false; isNative := false; isWeb := true;
     isMobile := false; isDesktop := true;
     isIOS := false; isAndroid := false; isMacOS := false; isWindows := false;
     isLinux := false; isChromeOS := false;
     userAgent := ""; shouldShowTMAWarning := false;
     capacitor := None; telegram := None |}.

(** Lines 119-142 of [performDetection]: the device and OS guesses are
    adjusted to the platform the Telegram client reports. *)
Definition telegram_override (isTelegram : bool) (telegram : option string)
    (device : DeviceType) (os : OSType) : DeviceType * bool * OSType :=
  let finalDevice := device in
  let finalIsMobile := DeviceType_eqb device Device_mobile
                       || DeviceType_eqb device Device_tablet in
  let finalOS := os in
  match (if isTelegram then telegram else None) with
  | Some tgPlatform =>
      if negb (truthy tgPlatform) then (finalDevice, finalIsMobile, finalOS)
      else if String.eqb tgPlatform "ios" || String.eqb tgPlatform "android"
              || String.eqb tgPlatform "android_x" then
        let fd := if DeviceType_eqb device Device_tablet then Device_tablet
                  else Device_mobile in
        let o1 := if String.eqb tgPlatform "ios" && negb (OSType_eqb os OS_ios)
                  then OS_ios else finalOS in
        let o2 := if (String.eqb tgPlatform "android"
                      || String.eqb tgPlatform "android_x")
                     && negb (OSType_eqb os OS_android)
                  then OS_android else o1 in
        (fd, true, o2)
      else if String.eqb tgPlatform "macos" || String.eqb tgPlatform "tdesktop" then
        let o1 := if String.eqb tgPlatform "macos" && negb (OSType_eqb os OS_macos)
                  then OS_macos else finalOS in
        (Device_desktop, false, o1)
      else (finalDevice, finalIsMobile, finalOS)
  | None => (finalDevice, finalIsMobile, finalOS)
  end.

Definition performDetection (env : Env) (opts : Options) : PlatformInfo :=
  if negb env.(window_defined) then createServerSideInfo else
  let userAgent := if truthy opts.(opt_userAgent) then opts.(opt_userAgent)
                   else env.(nav_userAgent) in
  let hostname := if truthy opts.(opt_hostname) then opts.(opt_hostname)
                  else env.(loc_hostname) in
  let os := detectOS env.(nav) userAgent in
  let device := detectDevice env.(nav) userAgent os in
  let domainMode := detectDomainMode hostname in
  (* 1. native wrappers *)
  let isNativeCapacitor := detectNative env in
  let capacitor := getCapacitorInfo env in
  let isNative := isNativeCapacitor && capacitor_runtime_flag capacitor in
  (* 2. Telegram Mini App *)
  let isTelegram := detectTelegram env opts in
  let telegram := getTelegramInfo env opts in
  (* 3. PWA *)
  let isPWA := detectPWA env in
  let type := if isNative then Type_native
              else if isTelegram then Type_tma
              else if isPWA then Type_pwa
              else Type_web in
  let shouldShowTMAWarning := DomainMode_eqb domainMode Domain_tma && negb isTelegram in
  let '(finalDevice, finalIsMobile, finalOS) :=
    telegram_override isTelegram telegram device os in
  {| type := type; os := finalOS; device := finalDevice; domainMode := domainMode;
     isPWA := isPWA; isTelegram := isTelegram; isNative := isNative;
     isWeb := negb isNative && negb isTelegram;
     isMobile := finalIsMobile; isDesktop := negb finalIsMobile;
     isIOS := OSType_eqb finalOS OS_ios;
     isAndroid := OSType_eqb finalOS OS_android;
     isMacOS := OSType_eqb finalOS OS_macos;
     isWindows := OSType_eqb finalOS OS_windows;
     isLinux := OSType_eqb finalOS OS_linux;
     isChromeOS := OSType_eqb finalOS OS_chromeos;
     userAgent := userAgent;
     shouldShowTMAWarning := shouldShowTMAWarning;
     capacitor := capacitor; telegram := telegram |}.

(* ------------------------------------------------------------------ *)
(** ** [detectAsync]: merging Client Hints into a base result *)

Record ClientHints := mkClientHints {
  hints_os : option OSType;
  hints_device : option DeviceType
}.

(** How [await ClientHintsDetector.detect()] ends. *)
Inductive HintsOutcome :=
  | Hints_throw
  | Hints_none
  | Hints_value (h : ClientHints).

Definition detectAsync_merge (baseInfo : PlatformInfo) (opts : Options)
    (supported : bool) (outcome : HintsOutcome) : PlatformInfo :=
  if negb supported
     || match opts.(opt_useClientHints) with Some false => true | _ => false end
  then baseInfo else
  match outcome with
  | Hints_throw => baseInfo
  | Hints_none => baseInfo
  | Hints_value hints =>
      let os' := match hints.(hints_os) with Some o => o | None => baseInfo.(os) end in
      let device' := match hints.(hints_device) with
                     | Some d => d | None => baseInfo.(device) end in
      {| type := baseInfo.(type); os := os'; device := device';
         domainMode := baseInfo.(domainMode);
         isPWA := baseInfo.(isPWA); isTelegram := baseInfo.(isTelegram);
         isNative := baseInfo.(isNative); isWeb := baseInfo.(isWeb);
         isMobile := match hints.(hints_device) with
                     | Some Device_mobile | Some Device_tablet => true
                     | _ => baseInfo.(isMobile) end;
         isDesktop := match hints.(hints_device) with
                      | Some Device_desktop => true
                      | _ => baseInfo.(isDesktop) end;
         isIOS := OSType_eqb os' OS_ios;
         isAndroid := OSType_eqb os' OS_android;
         isMacOS := OSType_eqb os' OS_macos;
         isWindows := OSType_eqb os' OS_windows;
         isLinux := OSType_eqb os' OS_linux;
         isChromeOS := OSType_eqb os' OS_chromeos;
         userAgent := baseInfo.(userAgent);
         shouldShowTMAWarning := baseInfo.(shouldShowTMAWarning);
         capacitor := baseInfo.(capacitor); telegram := baseInfo.(telegram) |}
  end.

(* ------------------------------------------------------------------ *)
(** ** Percent-encoding and [application/x-www-form-urlencoded]

    A string is taken as its UTF-8 byte sequence; [encodeURIComponent]
    leaves the unreserved characters alone and writes every other octet as
    [%XX] (upper-case hex), which on valid UTF-8 is what the built-in does
    code point by code point. *)

Module Url.

Definition hex_upper (n : nat) : ascii :=
  if (n <? 10)%nat then ascii_of_nat (48 + n) else ascii_of_nat (55 + n).

Definition hex_lower (n : nat) : ascii :=
  if (n <? 10)%nat then ascii_of_nat (48 + n) else ascii_of_nat (87 + n).

Definition hex_value (c : ascii) : option nat :=
  let n := nat_of_ascii c in
  if (48 <=? n)%nat && (n <=? 57)%nat then Some (n - 48)
  else if (65 <=? n)%nat && (n <=? 70)%nat then Some (n - 55)
  else if (97 <=? n)%nat && (n <=? 102)%nat then Some (n - 87)
  else None.

Definition is_alnum (c : ascii) : bool :=
  let n := nat_of_ascii c in
  ((48 <=? n)%nat && (n <=? 57)%nat)
  || ((65 <=? n)%nat && (n <=? 90)%nat)
  || ((97 <=? n)%nat && (n <=? 122)%nat).

Fixpoint string_forall (p : ascii -> bool) (s : string) : bool :=
  match s with
  | EmptyString => true
  | String c r => p c && string_forall p r
  end.

Definition char_in (c : ascii) (set : string) : bool :=
  negb (string_forall (fun d => negb (Ascii.eqb c d)) set).

(** The characters [encodeURIComponent] keeps. *)
Definition uri_unreserved (c : ascii) : bool := is_alnum c || char_in c "-_.!~*'()".

Definition percent_byte (c : ascii) : string :=
  let n := nat_of_ascii c in
  String "%" (String (hex_upper (n / 16)) (String (hex_upper (n mod 16)) EmptyString)).

Definition encode_uri_char (c : ascii) : string :=
  if uri_unreserved c then String c EmptyString else percent_byte c.

Fixpoint encodeURIComponent (s : string) : string :=
  match s with
  | EmptyString => EmptyString
  | String c r => encode_uri_char c ++ encodeURIComponent r
  end.

(** Percent-decoding of the URL standard: [%] followed by two hex digits
    is that byte, anything else is kept. *)
Fixpoint percent_decode (s : string) : string :=
  match s with
  | EmptyString => EmptyString
  | String c r =>
      if Ascii.eqb c "%" then
        match r with
        | String h (String l r') =>
            match hex_value h, hex_value l with
            | Some a, Some b => String (ascii_of_nat (16 * a + b)) (percent_decode r')
            | _, _ => String c (percent_decode r)
            end
        | _ => String c (percent_decode r)
        end
      else String c (percent_decode r)
  end.

Fixpoint split_on (sep : ascii) (s : string) : list string :=
  match s with
  | EmptyString => [EmptyString]
  | String c r =>
      if Ascii.eqb c sep then EmptyString :: split_on sep r
      else match split_on sep r with
           | [] => [String c EmptyString]
           | x :: xs => String c x :: xs
           end
  end.

Fixpoint split_first (sep : ascii) (s : string) : option (string * string) :=
  match s with
  | EmptyString => None
  | String c r =>
      if Ascii.eqb c sep then Some (EmptyString, r)
      else match split_first sep r with
           | Some (a, b) => Some (String c a, b)
           | None => None
           end
  end.

Fixpoint replace_plus (s : string) : string :=
  match s with
  | EmptyString => EmptyString
  | String c r => String (if Ascii.eqb c "+" then " "%char else c) (replace_plus r)
  end.

Definition parse_sequence (seq : string) : string * string :=
  let '(name, value) := match split_first "=" seq with
                        | Some nv => nv
                        | None => (seq, EmptyString)
                        end in
  (percent_decode (replace_plus name), percent_decode (replace_plus value)).

(** [new URLSearchParams(s)]: the list of its entries, in order. *)
Definition urlencoded_parse (s : string) : list (string * string) :=
  map parse_sequence (filter (fun seq => negb (String.eqb seq "")) (split_on "&" s)).

Definition urlencoded_byte (c : ascii) : string :=
  if Ascii.eqb c " " then "+"
  else if is_alnum c || char_in c "*-._" then String c EmptyString
  else percent_byte c.

Fixpoint urlencoded_serialize (s : string) : string :=
  match s with
  | EmptyString => EmptyString
  | String c r => urlencoded_byte c ++ urlencoded_serialize r
  end.

Fixpoint join (sep : string) (l : list string) : string :=
  match l with
  | [] => EmptyString
  | [x] => x
  | x :: xs => x ++ sep ++ join sep xs
  end.

(** [URLSearchParams.prototype.toString()]. *)
Definition urlencoded_toString (entries : list (string * string)) : string :=
  join "&" (map (fun '(n, v) => urlencoded_serialize n ++ "=" ++ urlencoded_serialize v)
                entries).

End Url.

Import Url.

(* ------------------------------------------------------------------ *)
(** ** [checkTMAAvailability] *)

Record TMAAvailability := mkTMAAvailability {
  isAvailable : bool;
  reason : option string;
  botUrl : option string
}.

Definition checkTMAAvailability (env : Env) (opts : Options) (botUsername : string)
  : TMAAvailability :=
  if detectTelegram env opts then mkTMAAvailability true None None else
  let currentUrl := if env.(window_defined) then env.(loc_href) else "" in
  let encodedUrl := encodeURIComponent currentUrl in
  let botUrl := "https://t.me/" ++ botUsername ++ "?start=" ++ encodedUrl in
  mkTMAAvailability false (Some "Not running in Telegram Mini App environment")
    (Some botUrl).

(* ------------------------------------------------------------------ *)
(** ** The detector instance and its result cache ([detect], [clearCache])

    Results are objects; [performDetection] allocates a new one on every
    call. An object is named by its allocation number, [next_object] is the
    next number to hand out. [detect] reads [Date.now()] twice: [now_check]
    is the value read for the cache test, [now_store] the one stored after a
    recomputation. *)

Module Cache.

Record Detector := mkDetector {
  options : Options;
  cache : option nat;
  cacheTimestamp : option Z;
  next_object : nat
}.

Definition new_detector (opts : Options) : Detector := mkDetector opts None None 0.

(** [this.options.cacheTTL || 5000] *)
Definition effective_ttl (opts : Options) : Z :=
  match opts.(opt_cacheTTL) with
  | Some t => if (t =? 0)%Z then 5000 else t
  | None => 5000
  end.

Definition detect (now_check now_store : Z) (d : Detector) : nat * Detector :=
  let hit :=
    match d.(cache), d.(cacheTimestamp) with
    | Some obj, Some ts =>
        if negb (ts =? 0)%Z && (now_check - ts <? effective_ttl d.(options))%Z
        then Some obj else None
    | _, _ => None
    end in
  match hit with
  | Some obj => (obj, d)
  | None =>
      let result := d.(next_object) in
      (result, mkDetector d.(options) (Some result) (Some now_store) (S d.(next_object)))
  end.


End Cache.

(* ------------------------------------------------------------------ *)
(** ** HMAC-SHA256 (what [crypto.subtle.sign("HMAC", ...)] computes)

    Bytes are [Z]s in [0, 256), 32-bit words [Z]s in [0, 2^32) with the
    wrap-around of the additions written out. The verifier below takes its
    HMAC primitive from the environment; this is the one Web Crypto
    provides, used for concrete runs. *)

Module Sha256.
Open Scope Z_scope.
Open Scope list_scope.

Definition mask32 : Z := 4294967295.
Definition add32 (a b : Z) : Z := (a + b) mod 4294967296.
Definition rotr (x : Z) (n : Z) : Z :=
  Z.land (Z.lor (Z.shiftr x n) (Z.shiftl x (32 - n))) mask32.
Definition Ch (x y z : Z) : Z := Z.lxor (Z.land x y) (Z.land (Z.lxor x mask32) z).
Definition Maj (x y z : Z) : Z :=
  Z.lxor (Z.land x y) (Z.lxor (Z.land x z) (Z.land y z)).
Definition Sigma0 (x : Z) : Z := Z.lxor (rotr x 2) (Z.lxor (rotr x 13) (rotr x 22)).
Definition Sigma1 (x : Z) : Z := Z.lxor (rotr x 6) (Z.lxor (rotr x 11) (rotr x 25)).
Definition sigma0 (x : Z) : Z := Z.lxor (rotr x 7) (Z.lxor (rotr x 18) (Z.shiftr x 3)).
Definition sigma1 (x : Z) : Z := Z.lxor (rotr x 17) (Z.lxor (rotr x 19) (Z.shiftr x 10)).

(** The round constants and the initial hash value of FIPS 180-4,
    written in decimal. *)
Definition K : list Z :=
  [1116352408; 1899447441; 3049323471; 3921009573; 961987163; 1508970993;
   2453635748; 2870763221; 3624381080; 310598401; 607225278; 1426881987;
   1925078388; 2162078206; 2614888103; 3248222580; 3835390401; 4022224774;
   264347078; 604807628; 770255983; 1249150122; 1555081692; 1996064986;
   2554220882; 2821834349; 2952996808; 3210313671; 3336571891; 3584528711;
   113926993; 338241895; 666307205; 773529912; 1294757372; 1396182291;
   1695183700; 1986661051; 2177026350; 2456956037; 2730485921; 2820302411;
   3259730800; 3345764771; 3516065817; 3600352804; 4094571909; 275423344;
   430227734; 506948616; 659060556; 883997877; 958139571; 1322822218;
   1537002063; 1747873779; 1955562222; 2024104815; 2227730452; 2361852424;
   2428436474; 2756734187; 3204031479; 3329325298].

Definition H0 : list Z :=
  [1779033703; 3144134277; 1013904242; 2773480762;
   1359893119; 2600822924; 528734635; 1541459225].

Definition be_word (b : list Z) : Z :=
  fold_left (fun acc x => acc * 256 + x) b 0.

Fixpoint words_of_block (n : nat) (b : list Z) : list Z :=
  match n with
  | O => []
  | S n' => be_word (firstn 4 b) :: words_of_block n' (skipn 4 b)
  end.

Fixpoint schedule (n : nat) (w : list Z) : list Z :=
  match n with
  | O => w
  | S n' =>
      let t := length w in
      let wt := add32 (add32 (sigma1 (nth (t - 2) w 0)) (nth (t - 7) w 0))
                      (add32 (sigma0 (nth (t - 15) w 0)) (nth (t - 16) w 0)) in
      schedule n' (w ++ [wt])
  end.

Definition round (st : list Z) (kw : Z * Z) : list Z :=
  match st with
  | [a; b; c; d; e; f; g; h] =>
      let t1 := add32 (add32 (add32 h (Sigma1 e)) (add32 (Ch e f g) (fst kw))) (snd kw) in
      let t2 := add32 (Sigma0 a) (Maj a b c) in
      [add32 t1 t2; a; b; c; add32 d t1; e; f; g]
  | _ => st
  end.

Definition compress (hs : list Z) (block : list Z) : list Z :=
  let w := schedule 48 (words_of_block 16 block) in
  let st := fold_left round (combine K w) hs in
  map (fun '(x, y) => add32 x y) (combine hs st).

Definition pad (msg : list Z) : list Z :=
  let l := length msg in
  let k := ((120 - (l + 1) mod 64) mod 64)%nat in
  let bits := 8 * Z.of_nat l in
  msg ++ [128] ++ repeat 0 k
      ++ map (fun i => Z.land (Z.shiftr bits (8 * (7 - Z.of_nat i))) 255) (seq 0 8).

Fixpoint process (n : nat) (hs : list Z) (m : list Z) : list Z :=
  match n with
  | O => hs
  | S n' => process n' (compress hs (firstn 64 m)) (skipn 64 m)
  end.

Definition word_bytes (x : Z) : list Z :=
  [Z.shiftr x 24; Z.land (Z.shiftr x 16) 255; Z.land (Z.shiftr x 8) 255; Z.land x 255].

Definition sha256 (msg : list Z) : list Z :=
  let m := pad msg in
  flat_map word_bytes (process (length m / 64) H0 m).

Definition hmac_sha256 (key data : list Z) : list Z :=
  let k := if (64 <? length key)%nat then sha256 key else key in
  let k := k ++ repeat 0 (64 - length k) in
  let ipad := map (Z.lxor 0x36) k in
  let opad := map (Z.lxor 0x5c) k in
  sha256 (opad ++ sha256 (ipad ++ data)).

End Sha256.

(** [TextEncoder.prototype.encode] (identity on the byte model of strings). *)
Definition encode (s : string) : list Z :=
  map (fun c => Z.of_nat (nat_of_ascii c)) (list_ascii_of_string s).

(** [bytesToHex]: two lower-case hex digits per byte. *)
Definition bytesToHex (bytes : list Z) : string :=
  fold_right (fun b acc =>
      let n := Z.to_nat b in
      String (hex_lower (n / 16)) (String (hex_lower (n mod 16)) acc))
    EmptyString bytes.

(** RFC 4231, test case 2. *)
Example hmac_sha256_rfc4231_case2 :
  bytesToHex (Sha256.hmac_sha256 (encode "Jefe") (encode "what do ya want for nothing?"))
  = "5bdcc146bf60754e6a042426089575c75a003f089d2739839dec58b964ec3843".
Proof. vm_compute. reflexivity. Qed.

(* ------------------------------------------------------------------ *)
(** ** [verifyTelegramInitData] (telegram-init-data.ts) *)

Module InitData.

Inductive ErrorCode :=
  | MISSING_INIT_DATA | MISSING_BOT_TOKEN | MISSING_HASH | HASH_MISMATCH
  | INVALID_AUTH_DATE | EXPIRED | INVALID_JSON | CRYPTO_UNAVAILABLE
  | INVALID_PAYLOAD.

(** The codes of [TelegramInitDataValidationErrorCode]. *)
Definition all_codes : list ErrorCode :=
  [MISSING_INIT_DATA; MISSING_BOT_TOKEN; MISSING_HASH; HASH_MISMATCH;
   INVALID_AUTH_DATE; EXPIRED; INVALID_JSON; CRYPTO_UNAVAILABLE; INVALID_PAYLOAD].

(** [initData: string | URLSearchParams | null | undefined] *)
Inductive InitDataInput :=
  | Init_absent
  | Init_string (s : string)
  | Init_params (entries : list (string * string)).

(** A parsed JSON value; arrays and objects are kept by their size and
    keys, since only the truthiness of a value matters to the verifier. *)
Inductive Json :=
  | JNull | JBool (b : bool) | JNum (n : Z) | JStr (s : string)
  | JArr (size : nat) | JObj (keys : list string).

Definition json_truthy (j : Json) : bool :=
  match j with
  | JNull => false
  | JBool b => b
  | JNum n => negb (n =? 0)%Z
  | JStr s => truthy s
  | JArr _ | JObj _ => true
  end.

(** The runtime the verifier runs in: [crypto] is [Some h] when
    [globalThis.crypto.subtle] exists, [h key data] being the HMAC-SHA256
    it signs with; [date_now] is [Date.now()]; [json_parse] is [JSON.parse]
    ([None] when it throws); [number_of] is [Number(s)] when that is a
    finite (integral) number, [None] otherwise. *)
Record Runtime := mkRuntime {
  crypto : option (list Z -> list Z -> list Z);
  date_now : Z;
  json_parse : string -> option Json;
  number_of : string -> option Z
}.

Record ValidationOptions := mkValidationOptions {
  currentTimestamp : option Z;
  maxAgeSeconds : option Z;
  requireUser : bool
}.

Record TelegramInitData := mkTelegramInitData {
  query_id : option string;
  user : option Json;
  receiver : option Json;
  chat : option Json;
  chat_type : option string;
  chat_instance : option string;
  start_param : option string;
  can_send_after : option Z;
  auth_date : Z;
  hash : string;
  dataCheckString : string;
  raw : string;
  rawParams : list (string * string)
}.

Inductive ValidationResult :=
  | Ok (data : TelegramInitData)
  | Invalid (error : ErrorCode) (message : string).

Definition DEFAULT_MAX_AGE_SECONDS : Z := 600.

(** A small error monad for the sequence of checks. *)
Definition Check (A : Type) : Type := (ErrorCode * string) + A.
Definition ret {A} (a : A) : Check A := inr a.
Definition fail {A} (e : ErrorCode) (m : string) : Check A := inl (e, m).
Definition bind {A B} (m : Check A) (k : A -> Check B) : Check B :=
  match m with inl e => inl e | inr a => k a end.
Notation "x <- m ;; k" := (bind m (fun x => k)) (at level 61, m at next level, right associativity).

(** [String.prototype.trim] on ASCII white space. *)
Definition is_ws (c : ascii) : bool :=
  let n := nat_of_ascii c in ((9 <=? n)%nat && (n <=? 13)%nat) || (n =? 32)%nat.

Fixpoint trim_start (s : string) : string :=
  match s with
  | EmptyString => EmptyString
  | String c r => if is_ws c then trim_start r else s
  end.

Fixpoint string_rev (s : string) : string :=
  match s with
  | EmptyString => EmptyString
  | String c r => string_rev r ++ String c EmptyString
  end.

Definition trim (s : string) : string := string_rev (trim_start (string_rev (trim_start s))).

(** [params.get(k)]: the value of the first entry named [k]. *)
Fixpoint get (entries : list (string * string)) (k : string) : option string :=
  match entries with
  | [] => None
  | (k', v) :: rest => if String.eqb k' k then Some v else get rest k
  end.

Fixpoint assoc_set (m : list (string * string)) (k v : string) : list (string * string) :=
  match m with
  | [] => [(k, v)]
  | (k', v') :: rest => if String.eqb k' k then (k, v) :: rest
                        else (k', v') :: assoc_set rest k v
  end.

(** The comparison [a < b] on strings (code-unit order). *)
Fixpoint string_ltb (a b : string) : bool :=
  match a, b with
  | EmptyString, EmptyString => false
  | EmptyString, String _ _ => true
  | String _ _, EmptyString => false
  | String x a', String y b' =>
      if (nat_of_ascii x <? nat_of_ascii y)%nat then true
      else if (nat_of_ascii y <? nat_of_ascii x)%nat then false
      else string_ltb a' b'
  end.

(** [Array.prototype.sort] with the comparator of the source, taken as an
    insertion sort (the sort is stable, and elements the comparator calls
    equal are equal strings). *)
Fixpoint insert_sorted (x : string) (l : list string) : list string :=
  match l with
  | [] => [x]
  | y :: ys => if string_ltb y x then y :: insert_sorted x ys else x :: y :: ys
  end.

Fixpoint sort_strings (l : list string) : list string :=
  match l with
  | [] => []
  | x :: xs => insert_sorted x (sort_strings xs)
  end.

Definition buildDataCheckString (entries : list (string * string)) : string :=
  join (String (ascii_of_nat 10) EmptyString)
    (sort_strings
       (map (fun '(key, value) => key ++ "=" ++ value)
          (filter (fun '(key, _) => negb (String.eqb key "hash")) entries))).

(** [timingSafeEqual]: equal lengths, then the OR of the XORs of all code
    units, with no early exit. *)
Fixpoint xor_accumulate (acc : Z) (a b : string) : Z :=
  match a, b with
  | String x a', String y b' =>
      xor_accumulate (Z.lor acc (Z.lxor (Z.of_nat (nat_of_ascii x))
                                          (Z.of_nat (nat_of_ascii y)))) a' b'
  | _, _ => acc
  end.

Definition timingSafeEqual (a b : string) : bool :=
  if negb (String.length a =? String.length b)%nat then false
  else (xor_accumulate 0 a b =? 0)%Z.

Definition dq : string := String (ascii_of_nat 34) EmptyString.

Inductive JsonField := Field_absent | Field_value (j : Json) | Field_error (m : string).

Definition parseJsonField (rt : Runtime) (value : option string) (field : string)
  : JsonField :=
  match value with
  | None => Field_absent
  | Some v =>
      if negb (truthy v) then Field_absent
      else match rt.(json_parse) v with
           | Some j => Field_value j
           | None => Field_error ("Invalid JSON in " ++ dq ++ field ++ dq ++ " field")
           end
  end.

Definition json_or_undefined (f : JsonField) : option Json :=
  match f with Field_value j => if json_truthy j then Some j else None | _ => None end.

Definition string_or_undefined (v : option string) : option string :=
  match v with Some s => if truthy s then Some s else None | None => None end.

(** [rawString] and [params] of lines 39-46. *)
Definition raw_string (initData : InitDataInput) : string :=
  match initData with
  | Init_string s0 => trim s0
  | Init_params e => urlencoded_toString e
  | Init_absent => EmptyString
  end.

Definition payload_params (initData : InitDataInput) : list (string * string) :=
  let rawString := raw_string initData in
  match initData with
  | Init_params e => urlencoded_parse (urlencoded_toString e)
  | _ => urlencoded_parse
           (if startsWith "?" rawString
            then substring 1 (String.length rawString - 1) rawString
            else rawString)
  end.

(** Lines 22-92: presence checks, parsing, check string and signature. *)
Definition verify_signature (rt : Runtime) (initData : InitDataInput)
    (botToken : option string)
  : Check (list (string * string) * string * string * string) :=
  present_payload <- (match initData with
  | Init_absent => fail MISSING_INIT_DATA "initData payload is required"
  | Init_string s0 =>
      if String.eqb (trim s0) "" then fail MISSING_INIT_DATA "initData payload is required"
      else ret tt
  | Init_params _ => ret tt
  end) ;;
  present_token <- (if match botToken with Some t => truthy t | None => false end then ret tt
   else fail MISSING_BOT_TOKEN "Telegram bot token is required") ;;
  let token := match botToken with Some t => t | None => EmptyString end in
  let rawString := raw_string initData in
  let params := payload_params initData in
  hash <- match get params "hash" with
          | Some h => if truthy h then ret h
                      else fail MISSING_HASH "hash parameter is required in initData"
          | None => fail MISSING_HASH "hash parameter is required in initData"
          end ;;
  let dataCheckString := buildDataCheckString params in
  match rt.(crypto) with
  | None => fail CRYPTO_UNAVAILABLE
              "Web Crypto API (crypto.subtle) is not available in this environment"
  | Some hmacSha256 =>
      let secretKey := hmacSha256 (encode "WebAppData") (encode token) in
      let computedHash := hmacSha256 secretKey (encode dataCheckString) in
      let computedHex := bytesToHex computedHash in
      if negb (timingSafeEqual computedHex (toLowerCase hash))
      then fail HASH_MISMATCH "initData hash does not match Telegram signature"
      else ret (params, hash, dataCheckString, rawString)
  end.

Definition current_time (rt : Runtime) (options : ValidationOptions) : Z :=
  match options.(currentTimestamp) with
  | Some t => t
  | None => (rt.(date_now) / 1000)%Z
  end.

Definition max_age (options : ValidationOptions) : Z :=
  match options.(maxAgeSeconds) with
  | Some m => m
  | None => DEFAULT_MAX_AGE_SECONDS
  end.

(** Lines 94-115: [auth_date] and freshness. *)
Definition verify_freshness (rt : Runtime) (options : ValidationOptions)
    (params : list (string * string)) : Check Z :=
  let authDate := match get params "auth_date" with
                  | Some r => if truthy r then rt.(number_of) r else None
                  | None => None
                  end in
  match authDate with
  | None => fail INVALID_AUTH_DATE "auth_date must be a valid UNIX timestamp"
  | Some authDate =>
      let now := current_time rt options in
      let maxAge := max_age options in
      if (0 <? maxAge)%Z && (maxAge <? now - authDate)%Z
      then fail EXPIRED "initData is expired"
      else if (60 <? authDate - now)%Z
      then fail INVALID_AUTH_DATE "auth_date is more than 60 seconds in the future"
      else ret authDate
  end.

(** Lines 117-163: embedded JSON fields and the result record. *)
Definition verify_fields (rt : Runtime) (options : ValidationOptions)
    (params : list (string * string)) (authDate : Z)
    (hash dataCheckString rawString : string) : ValidationResult :=
  let user := parseJsonField rt (get params "user") "user" in
  let receiver := parseJsonField rt (get params "receiver") "receiver" in
  let chat := parseJsonField rt (get params "chat") "chat" in
  match user with Field_error m => Invalid INVALID_JSON m | _ =>
  match receiver with Field_error m => Invalid INVALID_JSON m | _ =>
  match chat with Field_error m => Invalid INVALID_JSON m | _ =>
  if options.(requireUser) && negb (match json_or_undefined user with
                                    | Some _ => true | None => false end)
  then Invalid INVALID_PAYLOAD "user field is required but missing"
  else
    let canSendAfter := match get params "can_send_after" with
                        | Some r => if truthy r then rt.(number_of) r else None
                        | None => None
                        end in
    Ok {| query_id := string_or_undefined (get params "query_id");
          user := json_or_undefined user;
          receiver := json_or_undefined receiver;
          chat := json_or_undefined chat;
          chat_type := string_or_undefined (get params "chat_type");
          chat_instance := string_or_undefined (get params "chat_instance");
          start_param := string_or_undefined (get params "start_param");
          can_send_after := canSendAfter;
          auth_date := authDate;
          hash := hash;
          dataCheckString := dataCheckString;
          raw := rawString;
          rawParams := fold_left (fun m '(k, v) => assoc_set m k v) params [] |}
  end end end.

Definition verifyTelegramInitData (rt : Runtime) (initData : InitDataInput)
    (botToken : option string) (options : ValidationOptions) : ValidationResult :=
  match verify_signature rt initData botToken with
  | inl (e, m) => Invalid e m
  | inr (params, hash, dataCheckString, rawString) =>
      match verify_freshness rt options params with
      | inl (e, m) => Invalid e m
      | inr authDate =>
          verify_fields rt options params authDate hash dataCheckString rawString
      end
  end.

(** [Number(s)] on decimal digit strings, for concrete runs. *)
Definition decimal_number (s : string) : option Z :=
  if truthy s && string_forall is_digit s then
    Some (fold_left (fun acc c => acc * 10 + Z.of_nat (nat_of_ascii c - 48))%Z
                    (list_ascii_of_string s) 0%Z)
  else None.

(** A runtime with Web Crypto, [Date.now() = now_ms], and a [JSON.parse]
    that accepts the given documents. *)
Definition web_runtime (now_ms : Z) (json_ok : string -> option Json) : Runtime :=
  mkRuntime (Some Sha256.hmac_sha256) now_ms json_ok decimal_number.

End InitData.

(* ------------------------------------------------------------------ *)
(** ** Further methods of [PlatformDetector] (detector.ts) *)

Module DetectorMore.

Inductive EnvironmentType := Env_development | Env_production | Env_unknown.

(** [detectEnvironment()]; [environment] is [this.options.environment]. *)
Definition detectEnvironment (environment : option EnvironmentType) (env : Env)
    (opts : Options) : EnvironmentType :=
  match environment with
  | Some e => e
  | None =>
      if negb env.(window_defined) then Env_unknown else
      let hostname := if truthy opts.(opt_hostname) then opts.(opt_hostname)
                      else env.(loc_hostname) in
      if String.eqb hostname "localhost" || String.eqb hostname "127.0.0.1"
         || startsWith "192.168." hostname || startsWith "10." hostname
         || includes hostname "dev." || includes hostname "staging."
         || includes hostname ".local"
      then Env_development
      else if includes hostname ".com" || includes hostname ".org"
              || includes hostname ".net" || includes hostname ".io"
              || includes hostname ".app" || includes hostname ".cc"
      then Env_production
      else Env_unknown
  end.

(** The first of [modes] whose display-mode query matches. *)
Fixpoint first_display_mode (mm : string -> bool) (modes : list string) : option string :=
  match modes with
  | [] => None
  | mode :: rest => if mm ("(display-mode: " ++ mode ++ ")") then Some mode
                    else first_display_mode mm rest
  end.

Definition getDisplayMode (env : Env) : string :=
  if negb env.(window_defined) then "browser" else
  match first_display_mode env.(pwa).(matchMedia)
          ["fullscreen"; "standalone"; "minimal-ui"; "window-controls-overlay"] with
  | Some mode => mode
  | None =>
      if match env.(pwa).(nav_standalone) with Some true => true | _ => false end
      then "standalone-ios" else "browser"
  end.

(** What [isPWAInstallable] reads besides the PWA evidence. *)
Record InstallEvidence := mkInstallEvidence {
  has_manifest : bool;       (* document.querySelector('link[rel="manifest"]') !== null *)
  has_serviceWorker : bool;  (* 'serviceWorker' in navigator *)
  loc_protocol : string      (* location.protocol *)
}.

Definition isPWAInstallable (env : Env) (ie : InstallEvidence) : bool :=
  if negb env.(window_defined) then false
  else if detectPWA env then false
  else
    let isSecure := String.eqb ie.(loc_protocol) "https:"
                    || String.eqb env.(loc_hostname) "localhost" in
    ie.(has_manifest) && ie.(has_serviceWorker) && isSecure.

(** [openInTelegram(bot)]: its result, and [window.location.href] after
    the call. *)
Definition openInTelegram (env : Env) (opts : Options) (botUsername : string)
  : bool * string :=
  if negb env.(window_defined) then (false, env.(loc_href)) else
  let availability := checkTMAAvailability env opts botUsername in
  if availability.(isAvailable) then (true, env.(loc_href))
  else match availability.(botUrl) with
       | Some u => if truthy u then (true, u) else (false, env.(loc_href))
       | None => (false, env.(loc_href))
       end.

(** [getBrowserType()]: the case-insensitive patterns, tested on the
    lower-cased [navigator.userAgent]. *)
Definition getBrowserType (env : Env) : string :=
  if negb env.(window_defined) then "unknown" else
  let ua := toLowerCase env.(nav_userAgent) in
  if includes ua "edg" then "Edge"
  else if includes ua "firefox" || includes ua "fxios" then "Firefox"
  else if includes ua "opr" || includes ua "opera" then "Opera"
  else if (includes ua "chrome" || includes ua "crios")
          && negb (includes ua "opr" || includes ua "opera" || includes ua "chromium"
                   || includes ua "edg")
  then "Chrome"
  else if includes ua "safari"
          && negb (includes ua "chromium" || includes ua "edg" || includes ua "chrome"
                   || includes ua "crios" || includes ua "firefox")
  then "Safari"
  else if includes ua "samsungbrowser" then "Samsung Internet"
  else if includes ua "ucbrowser" then "UC Browser"
  else "unknown".

Inductive BrowserFamily := Family_chromium | Family_webkit | Family_gecko | Family_unknown.

(** [detectBrowserFamily(userAgent)]; [window_chrome] is
    [(window as any).chrome !== undefined]. *)
Definition detectBrowserFamily (window_chrome : bool) (userAgent : string) : BrowserFamily :=
  let ua := toLowerCase userAgent in
  if window_chrome || includes ua "chrome" || includes ua "crios" || includes ua "edg"
     || includes ua "opr" || includes ua "samsungbrowser"
  then Family_chromium
  else if includes ua "webkit" && negb (includes ua "chrome" || includes ua "crios")
  then Family_webkit
  else if includes ua "gecko" && negb (includes ua "webkit") then Family_gecko
  else Family_unknown.

End DetectorMore.

(* ------------------------------------------------------------------ *)
(** ** [ClientHintsDetector] (client-hints.ts)

    The fields of [ClientHintsData] that the detector reads; [None] is an
    absent field. The version strings ([osVersion]) are left out: no
    property below reads them. *)

Module ClientHintsModel.

Record ClientHintsData := mkClientHintsData {
  ch_architecture : option string;
  ch_formFactor : option string;
  ch_fullVersionList : option (list (string * string));  (* brand, version *)
  ch_model : option string;
  ch_platform : option string;
  ch_uaFullVersion : option string;
  ch_mobile : option bool
}.

(** The truthiness of an optional string field. *)
Definition str_truthy (o : option string) : bool :=
  match o with Some s => truthy s | None => false end.

(** [navigator.userAgentData]: [getHighEntropyValues] either rejects or
    resolves to a hints object. *)
Inductive HighEntropy := HE_reject | HE_resolve (h : ClientHintsData).

Record UADataObject := mkUADataObject {
  uad_mobile : option bool;
  uad_platform : option string;
  uad_highEntropy : HighEntropy
}.

Inductive UserAgentData :=
  | UAD_absent                  (* no 'userAgentData' key *)
  | UAD_other                   (* a key whose value is not of type object *)
  | UAD_null                    (* null, of type object *)
  | UAD_object (u : UADataObject).

Record ClientEnv := mkClientEnv {
  navigator_defined : bool;
  userAgentData : UserAgentData
}.

Definition isSupported (ce : ClientEnv) : bool :=
  ce.(navigator_defined)
  && match ce.(userAgentData) with UAD_null | UAD_object _ => true | _ => false end.

(** [getBasicHints()]; [None] is a [null] answer, [inl tt] a thrown
    [TypeError] (reading a field of [null]). *)
Definition getBasicHints (ce : ClientEnv) : unit + option ClientHintsData :=
  if negb (isSupported ce) then inr None else
  match ce.(userAgentData) with
  | UAD_object u =>
      inr (Some (mkClientHintsData None None None None
                   (if str_truthy u.(uad_platform) then u.(uad_platform) else None)
                   None
                   (Some (match u.(uad_mobile) with Some true => true | _ => false end))))
  | _ => inl tt
  end.

Definition getHighEntropyHints (ce : ClientEnv) : option ClientHintsData :=
  if negb (isSupported ce) then None else
  match ce.(userAgentData) with
  | UAD_object u =>
      match u.(uad_highEntropy) with
      | HE_resolve h =>
          Some {| ch_architecture := h.(ch_architecture); ch_formFactor := h.(ch_formFactor);
                  ch_fullVersionList := h.(ch_fullVersionList); ch_model := h.(ch_model);
                  ch_platform := h.(ch_platform); ch_uaFullVersion := h.(ch_uaFullVersion);
                  ch_mobile := Some (match u.(uad_mobile) with
                                     | Some true => true | _ => false end) |}
      | HE_reject =>
          if str_truthy u.(uad_platform)
          then match getBasicHints ce with inr r => r | inl _ => None end
          else None
      end
  | _ => None   (* [null.getHighEntropyValues] throws; [null?.platform] is falsy *)
  end.

(** The [os] field of [ClientHintsDetector.detectOS(hints)]. *)
Definition detectOS (hints : ClientHintsData) : option OSType :=
  if negb (str_truthy hints.(ch_platform)) then None else
  let platform := toLowerCase (match hints.(ch_platform) with Some p => p | None => "" end) in
  if String.eqb platform "windows" then Some OS_windows
  else if String.eqb platform "macos" then Some OS_macos
  else if String.eqb platform "android" then Some OS_android
  else if String.eqb platform "ios" then Some OS_ios
  else if String.eqb platform "linux" then Some OS_linux
  else if String.eqb platform "chromeos" || String.eqb platform "chrome os"
  then Some OS_chromeos
  else None.

(** [/tab\s?\d+/i] on a lower-cased string. *)
Fixpoint test_tab_space_digit (s : string) : bool :=
  (startsWith "tab" s
   && match String.get 3 s with
      | Some d => is_digit d
                  || (InitData.is_ws d
                      && match String.get 4 s with Some e => is_digit e | None => false end)
      | None => false
      end)
  || match s with
     | EmptyString => false
     | String _ s' => test_tab_space_digit s'
     end.

Definition isTabletModel (model : string) : bool :=
  let m := toLowerCase model in
  includes m "ipad" || includes m "tablet" || test_tab_space_digit m
  || includes m "galaxy tab"
  || includes m "nexus 7" || includes m "nexus 9" || includes m "nexus 10"
  || includes m "pixel c" || includes m "pixel slate"
  || includes m "surface".

Definition detectDevice (hints : ClientHintsData) : option DeviceType :=
  let fallback :=
    match hints.(ch_mobile) with
    | Some true =>
        if str_truthy hints.(ch_model)
           && isTabletModel (match hints.(ch_model) with Some m => m | None => "" end)
        then Some Device_tablet else Some Device_mobile
    | Some false => Some Device_desktop
    | None => None
    end in
  if str_truthy hints.(ch_formFactor) then
    let formFactor := toLowerCase (match hints.(ch_formFactor) with
                                   | Some f => f | None => "" end) in
    if String.eqb formFactor "mobile" then Some Device_mobile
    else if String.eqb formFactor "tablet" then Some Device_tablet
    else if String.eqb formFactor "desktop" then Some Device_desktop
    else if String.eqb formFactor "xr" then Some Device_desktop
    else fallback
  else fallback.

Definition getBrowserVersion (hints : ClientHintsData) : option string :=
  match hints.(ch_fullVersionList) with
  | Some ((_ :: _) as l) =>
      match find (fun '(brand, _) =>
                    negb (includes (toLowerCase brand) "chromium")
                    && negb (includes (toLowerCase brand) "not")) l with
      | Some (_, version) => Some version
      | None => None
      end
  | _ => hints.(ch_uaFullVersion)
  end.

Record ClientHintsResult := mkClientHintsResult {
  chr_os : option OSType;
  chr_device : option DeviceType;
  chr_isMobile : option bool;
  chr_architecture : option string;
  chr_model : option string;
  chr_browserVersion : option string
}.

(** [ClientHintsDetector.detect()] *)
Definition detect (ce : ClientEnv) : option ClientHintsResult :=
  if negb (isSupported ce) then None else
  match getHighEntropyHints ce with
  | None => None
  | Some hints =>
      Some (mkClientHintsResult (detectOS hints) (detectDevice hints) hints.(ch_mobile)
              hints.(ch_architecture) hints.(ch_model) (getBrowserVersion hints))
  end.

(** How [await ClientHintsDetector.detect()] ends inside [detectAsync], as
    the [HintsOutcome] of the merge. *)
Definition detect_outcome (ce : ClientEnv) : HintsOutcome :=
  match detect ce with
  | None => Hints_none
  | Some r => Hints_value (mkClientHints r.(chr_os) r.(chr_device))
  end.

End ClientHintsModel.

(* ------------------------------------------------------------------ *)
(** ** The [@tma.js] helpers (tma-sdk.ts) *)

Module TmaSdk.

(** [sdk.initData]: an object whose [raw] is a function (and what the
    call returns, a string or [undefined]), a string, or an object
    without a [raw] method. *)
Inductive InitDataField :=
  | InitData_raw_fn (result : option string)
  | InitData_string (s : string)
  | InitData_object.

Record MiniApp := mkMiniApp {
  ma_platform : option string;
  ma_ready : option bool;   (* [ready] is a function: [Some true] returns, [Some false] throws *)
  ma_headerColor : option string;
  ma_backgroundColor : option string
}.

Record Viewport := mkViewport { vp_height : Z; vp_stableHeight : Z; vp_isExpanded : bool }.

Record SdkInstance := mkSdkInstance {
  sdk_initData : option InitDataField;
  sdk_miniApp : option MiniApp;
  sdk_viewport : option Viewport;
  sdk_themeParams : option (list (string * option string));  (* own keys, values *)
  sdk_version : option string
}.

(** [window.retrieveLaunchParams]: not a function, a function that throws,
    or one that returns launch params ([None] for [null]/[undefined]). *)
Inductive LaunchParamsFn := RLP_absent | RLP_throw | RLP_return (lp : option SdkInstance).

(** The window globals the helpers read. A key can be present with a
    falsy value ([None]). *)
Record TmaWindow := mkTmaWindow {
  key___tma__sdk__ : bool;
  val___tma__sdk__ : option SdkInstance;
  key_tmaSDK : bool;
  val_tmaSDK : option SdkInstance;
  initMiniApp : option bool;   (* a function: [Some true] returns, [Some false] throws *)
  retrieveLaunchParams : LaunchParamsFn
}.

Definition initData_truthy (f : InitDataField) : bool :=
  match f with InitData_string s => truthy s | _ => true end.

Definition isTmaJsSdkAvailable (window_defined : bool) (w : TmaWindow) : bool :=
  if negb window_defined then false else
  let hasTmaJsSDK := w.(key___tma__sdk__) || w.(key_tmaSDK) in
  let hasSDKMethods := match w.(initMiniApp) with Some _ => true | None => false end
                       || match w.(retrieveLaunchParams) with RLP_absent => false | _ => true end in
  hasTmaJsSDK || hasSDKMethods.

Definition getTmaJsSdk (window_defined : bool) (w : TmaWindow) : option SdkInstance :=
  if negb window_defined then None else
  match w.(val___tma__sdk__) with
  | Some sdk => Some sdk
  | None =>
      match w.(val_tmaSDK) with
      | Some sdk => Some sdk
      | None =>
          match w.(retrieveLaunchParams) with
          | RLP_return lp =>
              Some {| sdk_initData := match lp with Some p => p.(sdk_initData) | None => None end;
                      sdk_miniApp := match lp with Some p => p.(sdk_miniApp) | None => None end;
                      sdk_viewport := match lp with Some p => p.(sdk_viewport) | None => None end;
                      sdk_themeParams := match lp with Some p => p.(sdk_themeParams) | None => None end;
                      sdk_version := match lp with Some p => p.(sdk_version) | None => None end |}
          | RLP_throw => None
          | RLP_absent => None
          end
      end
  end.

Definition isTelegramViaTmaJs (window_defined : bool) (w : TmaWindow) : bool :=
  if negb (isTmaJsSdkAvailable window_defined w) then false else
  match getTmaJsSdk window_defined w with
  | None => false
  | Some sdk =>
      let fromInitData :=
        match sdk.(sdk_initData) with
        | Some f =>
            initData_truthy f
            && match f with
               (* [rawData]: [raw()] when [raw] is a function, else [initData] itself *)
               | InitData_raw_fn (Some rawData) => truthy rawData
               | InitData_raw_fn None => false
               | InitData_string rawData => truthy rawData
               | InitData_object => false
               end
        | None => false
        end in
      if fromInitData then true
      else if match sdk.(sdk_miniApp) with
              | Some m => match m.(ma_platform) with
                          | Some p => truthy p && negb (String.eqb p "unknown")
                          | None => false
                          end
              | None => false
              end
      then true
      else if match sdk.(sdk_viewport) with
              | Some v => (0 <? v.(vp_height))%Z || (0 <? v.(vp_stableHeight))%Z
              | None => false
              end
      then true
      else if match sdk.(sdk_themeParams) with
              | Some keys => (0 <? length keys)%nat
              | None => false
              end
      then true
      else false
  end.

Definition getTelegramPlatformFromTmaJs (window_defined : bool) (w : TmaWindow)
  : option string :=
  match getTmaJsSdk window_defined w with
  | None => None
  | Some sdk =>
      match sdk.(sdk_miniApp) with
      | Some m => match m.(ma_platform) with
                  | Some p => if truthy p then Some p else None
                  | None => None
                  end
      | None => None
      end
  end.

(** [sdk.themeParams[name] || '']; the keys of the object are distinct. *)
Definition theme_field (tp : list (string * option string)) (name : string) : string :=
  match find (fun '(k, _) => String.eqb k name) tp with
  | Some (_, Some v) => v
  | _ => ""
  end.

Definition theme_keys : list string :=
  ["backgroundColor"; "textColor"; "hintColor"; "linkColor"; "buttonColor";
   "buttonTextColor"].

Definition getThemeParamsFromTmaJs (window_defined : bool) (w : TmaWindow)
  : option (list (string * string)) :=
  match getTmaJsSdk window_defined w with
  | None => None
  | Some sdk =>
      match sdk.(sdk_themeParams) with
      | None => None
      | Some tp => Some (map (fun k => (k, theme_field tp k)) theme_keys)
      end
  end.

Definition initializeTmaJs (window_defined : bool) (w : TmaWindow) : bool :=
  if negb window_defined then false else
  match w.(initMiniApp) with
  | Some returns => returns        (* a throw is caught: [false] *)
  | None =>
      match getTmaJsSdk window_defined w with
      | Some sdk =>
          match sdk.(sdk_miniApp) with
          | Some m => match m.(ma_ready) with
                      | Some returns => returns
                      | None => false
                      end
          | None => false
          end
      | None => false
      end
  end.

(** What the detector reads from these helpers, as its [TelegramEvidence]
    ([tma_platform] is [""] when the platform is falsy). *)
Definition telegram_evidence (window_defined : bool) (w : TmaWindow)
    (webApp : option WebApp) : TelegramEvidence :=
  mkTelegramEvidence (isTelegramViaTmaJs window_defined w)
    (isTmaJsSdkAvailable window_defined w)
    (match getTmaJsSdk window_defined w with Some _ => true | None => false end)
    (match getTelegramPlatformFromTmaJs window_defined w with
     | Some p => p | None => "" end)
    webApp.

(** A global that holds a value is a key of [window]. *)
Definition window_wf (w : TmaWindow) : Prop :=
  (w.(val___tma__sdk__) <> None -> w.(key___tma__sdk__) = true)
  /\ (w.(val_tmaSDK) <> None -> w.(key_tmaSDK) = true).

End TmaSdk.

(** Predicates used in the statements below, and sample inputs for the
    concrete runs. *)
Module Observations.
Import InitData.

Definition native_verdict (env : Env) : bool :=
  detectNative env && capacitor_runtime_flag (getCapacitorInfo env).

Definition is_mobile_device (d : DeviceType) : bool :=
  DeviceType_eqb d Device_mobile || DeviceType_eqb d Device_tablet.

Definition os_flags_agree (r : PlatformInfo) : Prop :=
  isIOS r = OSType_eqb (os r) OS_ios
  /\ isAndroid r = OSType_eqb (os r) OS_android
  /\ isMacOS r = OSType_eqb (os r) OS_macos
  /\ isWindows r = OSType_eqb (os r) OS_windows
  /\ isLinux r = OSType_eqb (os r) OS_linux
  /\ isChromeOS r = OSType_eqb (os r) OS_chromeos.

Definition web_flag_agrees (r : PlatformInfo) : Prop :=
  isWeb r = match type r with Type_web | Type_pwa => true | _ => false end.

Definition uri_safe (c : ascii) : bool := uri_unreserved c || Ascii.eqb c "%".

(** A closed check, per character, of what [encode_uri_char] writes. *)
Definition encode_char_ok (c : ascii) : bool :=
  match encode_uri_char c with
  | String d EmptyString => Ascii.eqb d c && negb (Ascii.eqb c "%")
  | String p (String h (String l EmptyString)) =>
      Ascii.eqb p "%"
      && match hex_value h, hex_value l with
         | Some a, Some b => Ascii.eqb (ascii_of_nat (16 * a + b)) c
         | _, _ => false
         end
  | _ => false
  end.

Definition payload_present (d : InitDataInput) : bool :=
  match d with
  | Init_absent => false
  | Init_string s => negb (String.eqb (trim s) "")
  | Init_params _ => true
  end.

(** The check string is a sorted arrangement of the rendered non-hash
    entries. *)
Definition str_le (a b : string) : Prop := string_ltb b a = false.

Definition rendered_fields (entries : list (string * string)) : list string :=
  map (fun '(key, value) => key ++ "=" ++ value)
    (filter (fun '(key, _) => negb (String.eqb key "hash")) entries).

(** Sample browser environments. *)
Definition sample_webapp : WebApp := mkWebApp "7.0" "" None "android" "light".

Definition sample_env (ne : NativeEvidence) (te : TelegramEvidence)
    (pe : PwaEvidence) : Env :=
  mkEnv true "Mozilla/5.0 (Linux; Android 13; Pixel 7) Mobile Safari/537.36"
    "tg.example.com" "https://tg.example.com/app?x=1"
    (mkNavigator "Linux armv8l" 5 412) ne te pe.

Definition capacitor_device : NativeEvidence :=
  mkNativeEvidence (Some (mkCapacitorGlobal (Some true) (Some "android")))
    false false false.

Definition no_native : NativeEvidence := mkNativeEvidence None false false false.

Definition tg_client : TelegramEvidence :=
  mkTelegramEvidence false false false "" (Some sample_webapp).

Definition no_tg : TelegramEvidence := mkTelegramEvidence false false false "" None.

Definition standalone_pwa : PwaEvidence :=
  mkPwaEvidence (fun q => String.eqb q "(display-mode: standalone)") None false.

Definition browser_tab : PwaEvidence := mkPwaEvidence (fun _ => false) None false.

End Observations.

Import Observations.

(** Sample signed payload: bot token [123456:ABC], signed with the
    two-stage HMAC-SHA256 of the Telegram documentation. *)
Module InitDataSamples.
Import InitData.

Definition sample_token : string := "123456:ABC".

Definition sample_fields : string :=
  "auth_date=1700000000&query_id=AAHdF6IQ&user=%7B%22id%22%3A1%7D".

Definition sample_hash : string :=
  "c258dcb1476b6cff5db1c0e9bdd4e3594bb2192c2cb11cbaa8a8320c99f9ff72".

Definition sample_payload : string := sample_fields ++ "&hash=" ++ sample_hash.

(** [Date.now()] 100 s after [auth_date]; [JSON.parse] accepts the user. *)
Definition sample_rt : Runtime :=
  web_runtime 1700000100000 (fun _ => Some (JObj ["id"])).

Definition sample_options : ValidationOptions := mkValidationOptions None None false.

End InitDataSamples.

(** Record updates, closed per-character checks and sample inputs used in
    the statements about the remaining detector helpers, Client Hints and
    the [@tma.js] helpers. *)
Module ModelObservations.
Import InitData DetectorMore TmaSdk.

Definition with_tg (env : Env) (te : TelegramEvidence) : Env :=
  mkEnv env.(window_defined) env.(nav_userAgent) env.(loc_hostname) env.(loc_href)
    env.(nav) env.(native) te env.(pwa).

Definition with_model (h : ClientHintsModel.ClientHintsData) (m : option string)
  : ClientHintsModel.ClientHintsData :=
  ClientHintsModel.mkClientHintsData h.(ClientHintsModel.ch_architecture)
    h.(ClientHintsModel.ch_formFactor) h.(ClientHintsModel.ch_fullVersionList) m
    h.(ClientHintsModel.ch_platform) h.(ClientHintsModel.ch_uaFullVersion)
    h.(ClientHintsModel.ch_mobile).

Definition with_mobile (h : ClientHintsModel.ClientHintsData) (b : option bool)
  : ClientHintsModel.ClientHintsData :=
  ClientHintsModel.mkClientHintsData h.(ClientHintsModel.ch_architecture)
    h.(ClientHintsModel.ch_formFactor) h.(ClientHintsModel.ch_fullVersionList)
    h.(ClientHintsModel.ch_model) h.(ClientHintsModel.ch_platform)
    h.(ClientHintsModel.ch_uaFullVersion) b.

Definition with_uaFullVersion (h : ClientHintsModel.ClientHintsData) (v : option string)
  : ClientHintsModel.ClientHintsData :=
  ClientHintsModel.mkClientHintsData h.(ClientHintsModel.ch_architecture)
    h.(ClientHintsModel.ch_formFactor) h.(ClientHintsModel.ch_fullVersionList)
    h.(ClientHintsModel.ch_model) h.(ClientHintsModel.ch_platform) v
    h.(ClientHintsModel.ch_mobile).

(** A closed check, per character, of what [urlencoded_byte] writes: no
    [&] or [=], and once [+] is read back as a space, either the character
    itself (not [%]) or [%XX] decoding to it. *)
Definition urlencoded_char_ok (c : ascii) : bool :=
  string_forall (fun d => negb (Ascii.eqb d "&") && negb (Ascii.eqb d "="))
    (urlencoded_byte c)
  && match replace_plus (urlencoded_byte c) with
     | String d EmptyString => Ascii.eqb d c && negb (Ascii.eqb d "%")
     | String p (String h (String l EmptyString)) =>
         Ascii.eqb p "%"
         && match hex_value h, hex_value l with
            | Some a, Some b => Ascii.eqb (ascii_of_nat (16 * a + b)) c
            | _, _ => false
            end
     | _ => false
     end.

(** The value of the last entry named [k]. *)
Definition last_get (entries : list (string * string)) (k : string) : option string :=
  get (rev entries) k.

(** Sample [@tma.js] windows: only [initMiniApp]; only a
    [retrieveLaunchParams] that returns [null]; an SDK global reporting an
    iOS client. *)
Definition window_initMiniApp_only : TmaWindow :=
  mkTmaWindow false None false None (Some true) RLP_absent.

Definition window_null_launch_params : TmaWindow :=
  mkTmaWindow false None false None None (RLP_return None).

Definition sdk_ios : SdkInstance :=
  mkSdkInstance None (Some (mkMiniApp (Some "ios") (Some true) None None)) None None
    (Some "7.0").

Definition window_sdk_ios : TmaWindow :=
  mkTmaWindow true (Some sdk_ios) false None None RLP_absent.

(** Characters other than [&] and [=]. *)
Definition no_amp_eq (d : ascii) : bool := negb (Ascii.eqb d "&") && negb (Ascii.eqb d "=").

(** An Android phone whose browser answers the high-entropy query. *)
Definition android_hints : ClientHintsModel.ClientEnv :=
  ClientHintsModel.mkClientEnv true
    (ClientHintsModel.UAD_object
       (ClientHintsModel.mkUADataObject (Some true) (Some "Android")
          (ClientHintsModel.HE_resolve
             (ClientHintsModel.mkClientHintsData (Some "arm") None
                (Some [("Chromium", "120.0.6099.43"); ("Google Chrome", "120.0.6099.43")])
                (Some "Pixel 7") (Some "Android") (Some "120.0.6099.43") None)))).

(** A signed payload whose [query_id] appears twice. *)
Definition dup_payload : string :=
  "auth_date=1700000000&query_id=AAHdF6IQ&user=%7B%22id%22%3A1%7D&query_id=second"
  ++ "&hash=35ea993a4bed7b223ffec828695650dd981e0ecbfbf3dc75e84c2a0a7f657635".

End ModelObservations.

Import ModelObservations.

(* ================================================================== *)
(** * Theorems *)

Section StringFacts.

Lemma lower_char_eqb (a b : ascii) :
  Ascii.eqb a b = true -> Ascii.eqb (lower_char a) (lower_char b) = true.
Proof.
  intros H. apply Ascii.eqb_eq in H. subst. apply Ascii.eqb_refl.
Qed.

Lemma startsWith_lower (p s : string) :
  startsWith p s = true -> startsWith (toLowerCase p) (toLowerCase s) = true.
Proof.
  revert s; induction p as [|a p IH]; intros s H; [reflexivity|].
  destruct s as [|b s]; [discriminate|].
  simpl in *. apply andb_prop in H as [H1 H2].
  rewrite (lower_char_eqb _ _ H1), (IH _ H2). reflexivity.
Qed.

Lemma includes_lower (s p : string) :
  includes s p = true -> includes (toLowerCase s) (toLowerCase p) = true.
Proof.
  induction s as [|c s IH]; intros H; simpl in *.
  - rewrite orb_false_r in *. now apply (startsWith_lower p EmptyString).
  - apply orb_prop in H as [H|H].
    + apply orb_true_intro; left.
      exact (startsWith_lower p (String c s) H).
    + apply orb_true_intro; right. now apply IH.
Qed.

End StringFacts.

(** C7. Whenever [navigator.platform] is ["MacIntel"] and the touch-point
    count exceeds 1, the classifier answers [ios] and [tablet], whatever
    the user agent says (also a plain desktop macOS one); and whenever the
    user agent contains an iPhone, iPad or iPod token (in any letter case),
    [detectOS] answers [ios], whatever the platform string. *)
Theorem classifier_ipados_and_ios_tokens :
  (forall (nav : Navigator) (ua : string),
      nav.(platform) = "MacIntel" -> (nav.(maxTouchPoints) > 1)%Z ->
      detectOS nav ua = OS_ios
      /\ detectDevice nav ua (detectOS nav ua) = Device_tablet)
  /\ (forall (nav : Navigator) (ua tok : string),
      In (toLowerCase tok) ["iphone"; "ipad"; "ipod"] ->
      includes ua tok = true ->
      detectOS nav ua = OS_ios).
Proof.
  split.
  - intros nav ua Hp Ht.
    assert (Hm : String.eqb nav.(platform) "MacIntel"
                 && (1 <? nav.(maxTouchPoints))%Z = true).
    { rewrite Hp. simpl. apply Z.ltb_lt. lia. }
    assert (Hos : detectOS nav ua = OS_ios).
    { unfold detectOS. rewrite Hm.
      destruct (_ || _ || _); reflexivity. }
    split; [exact Hos|]. rewrite Hos. unfold detectDevice. rewrite Hm, orb_true_r.
    reflexivity.
  - intros nav ua tok Hin Hinc.
    apply includes_lower in Hinc.
    unfold detectOS.
    simpl in Hin. destruct Hin as [E|[E|[E|[]]]]; rewrite <- E in Hinc; rewrite Hinc;
      rewrite ?orb_true_r; reflexivity.
Qed.

(** Witness for C7: an iPad in desktop mode with a macOS Safari user agent,
    and an iPhone user agent on an arbitrary platform. *)
Lemma classifier_ipados_and_ios_tokens_witness :
  let nav := mkNavigator "MacIntel" 5 1024 in
  let ua := "Mozilla/5.0 (Macintosh; Intel Mac OS X 10_15_7) AppleWebKit/605.1.15 Version/17.0 Safari/605.1.15" in
  (detectOS nav ua = OS_ios /\ detectDevice nav ua (detectOS nav ua) = Device_tablet)
  /\ detectOS (mkNavigator "Win32" 0 1920) "Mozilla/5.0 (iPhone; CPU iPhone OS 17_0)" = OS_ios.
Proof.
  intros nav ua. split.
  - apply (proj1 classifier_ipados_and_ios_tokens); simpl; [reflexivity | lia].
  - apply (proj2 classifier_ipados_and_ios_tokens) with (tok := "iPhone");
      vm_compute; [left; reflexivity | reflexivity].
Defined.

(* ------------------------------------------------------------------ *)
(** ** Facts about [performDetection] *)

Module DetectionFacts.

Lemma telegram_override_mobile (t : bool) (p : option string) (d : DeviceType)
    (o : OSType) :
  let '(fd, fm, _) := telegram_override t p d o in fm = is_mobile_device fd.
Proof.
  unfold telegram_override.
  destruct t; [|reflexivity].
  destruct p as [s|]; [|reflexivity].
  destruct (negb (truthy s)); [reflexivity|].
  destruct (_ || _ || _).
  - destruct d; reflexivity.
  - destruct (_ || _); reflexivity.
Qed.

Lemma performDetection_window (env : Env) (opts : Options) :
  window_defined env = true ->
  let ua := if truthy opts.(opt_userAgent) then opts.(opt_userAgent)
            else env.(nav_userAgent) in
  let host := if truthy opts.(opt_hostname) then opts.(opt_hostname)
              else env.(loc_hostname) in
  let r := performDetection env opts in
  type r = (if native_verdict env then Type_native
            else if detectTelegram env opts then Type_tma
            else if detectPWA env then Type_pwa else Type_web)
  /\ isNative r = native_verdict env
  /\ isTelegram r = detectTelegram env opts
  /\ isPWA r = detectPWA env
  /\ domainMode r = detectDomainMode host
  /\ shouldShowTMAWarning r
     = DomainMode_eqb (detectDomainMode host) Domain_tma
       && negb (detectTelegram env opts)
  /\ capacitor r = getCapacitorInfo env.
Proof.
  intros W ua host. unfold performDetection. rewrite W. cbn [negb].
  destruct (telegram_override _ _ _ _) as [[fd fm] fo].
  repeat split.
Qed.

Lemma performDetection_server (env : Env) (opts : Options) :
  window_defined env = false -> performDetection env opts = createServerSideInfo.
Proof. intros W. unfold performDetection. now rewrite W. Qed.

Lemma predicates_server (env : Env) (opts : Options) :
  window_defined env = false ->
  native_verdict env = false /\ detectTelegram env opts = false
  /\ detectPWA env = false.
Proof.
  intros W. unfold native_verdict, detectNative, detectTelegram, detectPWA.
  rewrite W. repeat split.
Qed.

(** The primary type, for every environment. *)
Lemma type_performDetection (env : Env) (opts : Options) :
  type (performDetection env opts)
  = if native_verdict env then Type_native
    else if detectTelegram env opts then Type_tma
    else if detectPWA env then Type_pwa else Type_web.
Proof.
  destruct (window_defined env) eqn:W.
  - exact (proj1 (performDetection_window env opts W)).
  - rewrite (performDetection_server env opts W).
    destruct (predicates_server env opts W) as [-> [-> ->]]. reflexivity.
Qed.

Lemma native_verdict_depends (env1 env2 : Env) :
  window_defined env1 = window_defined env2 -> native env1 = native env2 ->
  native_verdict env1 = native_verdict env2.
Proof.
  intros W N. unfold native_verdict, detectNative, getCapacitorInfo.
  now rewrite W, N.
Qed.

Lemma detectTelegram_depends (env1 env2 : Env) (opts1 opts2 : Options) :
  window_defined env1 = window_defined env2 -> tg env1 = tg env2 ->
  opt_telegramWebApp opts1 = opt_telegramWebApp opts2 ->
  detectTelegram env1 opts1 = detectTelegram env2 opts2.
Proof.
  intros W T O. unfold detectTelegram. now rewrite W, T, O.
Qed.

End DetectionFacts.

Import DetectionFacts.

(** C1 (counterexample). A bridge object with a version and non-empty init
    data, but neither platform nor color scheme, is rejected by
    [validateTelegramWebApp], although the claim has it accepted. *)
Lemma validate_initdata_without_scheme_rejected :
  let w := mkWebApp "7.0" "query_id=AAH&auth_date=1700000000&hash=ab" None "" "" in
  validateTelegramWebApp (Some w) = false
  /\ truthy w.(wa_version) = true /\ truthy w.(wa_initData) = true.
Proof. repeat split. Qed.

(** C1 (amended). For every first-party bridge object (also one passed as
    [options.telegramWebApp]), validation accepts exactly when the object
    has a version, a platform other than ["unknown"] and a color scheme;
    init data does not change the verdict. When the [@tma.js] check does
    not fire, [detectTelegram] answers with this validation of the
    stand-in if one is given, else of the global bridge object. *)
Theorem validateTelegramWebApp_iff :
  (forall w : WebApp,
      validateTelegramWebApp (Some w) = true
      <-> truthy w.(wa_version) = true
          /\ truthy w.(wa_platform) = true /\ w.(wa_platform) <> "unknown"
          /\ truthy w.(wa_colorScheme) = true)
  /\ validateTelegramWebApp None = false
  /\ (forall (env : Env) (opts : Options),
        window_defined env = true -> tma_via env.(tg) = false ->
        detectTelegram env opts
        = validateTelegramWebApp
            (match opts.(opt_telegramWebApp) with
             | Some w => Some w | None => env.(tg).(win_webApp) end)).
Proof.
  split; [|split].
  - intros w. unfold validateTelegramWebApp.
    destruct (truthy (wa_version w)) eqn:Hv; cbn [negb].
    + assert (Hr : forall b : bool,
                 (if b then truthy (wa_platform w)
                            && negb (String.eqb (wa_platform w) "unknown")
                            && truthy (wa_colorScheme w)
                  else truthy (wa_platform w)
                       && negb (String.eqb (wa_platform w) "unknown")
                       && truthy (wa_colorScheme w))
                 = truthy (wa_platform w)
                   && negb (String.eqb (wa_platform w) "unknown")
                   && truthy (wa_colorScheme w)) by (intros []; reflexivity).
      rewrite Hr, !andb_true_iff, negb_true_iff, String.eqb_neq. tauto.
    + split; [discriminate | intros [H _]; discriminate].
  - reflexivity.
  - intros env opts W T. unfold detectTelegram. rewrite W, T. cbn [negb].
    destruct (opt_telegramWebApp opts); [reflexivity|].
    destruct (win_webApp (tg env)); reflexivity.
Qed.

(** Witness for C1: a native client launch with platform and color scheme
    is accepted through the stand-in, with no [@tma.js] SDK present. *)
Lemma validateTelegramWebApp_iff_witness :
  let w := mkWebApp "7.0" "" None "ios" "dark" in
  let env := mkEnv true "Mozilla/5.0" "tg.example.com" "https://tg.example.com/"
               (mkNavigator "iPhone" 5 390)
               (mkNativeEvidence None false false false)
               (mkTelegramEvidence false false false "" None)
               (mkPwaEvidence (fun _ => false) None false) in
  let opts := construct_options "" "" (Some w) None None in
  validateTelegramWebApp (Some w) = true
  /\ detectTelegram env opts = validateTelegramWebApp (Some w).
Proof.
  intros w env opts. split.
  - apply (proj1 (proj1 validateTelegramWebApp_iff w)).
    repeat split; discriminate.
  - apply (proj2 (proj2 validateTelegramWebApp_iff) env opts); reflexivity.
Defined.

(** C3 (counterexample). An installed PWA in an ordinary browser context:
    the primary type is [pwa] and yet [isWeb] is true, so [isWeb] is not
    "primaryType is web". *)
Lemma pwa_result_has_isWeb :
  let env := mkEnv true "Mozilla/5.0 (Windows NT 10.0; Win64; x64)" "app.example.com"
               "https://app.example.com/"
               (mkNavigator "Win32" 0 1280)
               (mkNativeEvidence None false false false)
               (mkTelegramEvidence false false false "" None)
               (mkPwaEvidence (fun q => String.eqb q "(display-mode: standalone)")
                  None false) in
  let r := performDetection env (construct_options "" "" None None None) in
  type r = Type_pwa /\ isWeb r = true.
Proof. split; reflexivity. Qed.

(** C3 (amended). In every result of [detect()] (that is, of
    [performDetection], browser or server context): [isWeb] is true exactly
    when the primary type is [web] or [pwa] (neither native nor mini app);
    [isMobile] is true exactly when the device is [mobile] or [tablet];
    [isDesktop] is the negation of [isMobile]; every OS flag is the
    corresponding test on [os]. In every result of [detectAsync] built on
    such a result, [isWeb] and the OS flags keep the same relation to the
    merged [type] and [os]. *)
Theorem derived_flags_consistent :
  forall (env : Env) (opts : Options),
    let r := performDetection env opts in
    web_flag_agrees r
    /\ isMobile r = is_mobile_device (device r)
    /\ isDesktop r = negb (isMobile r)
    /\ os_flags_agree r
    /\ (forall (supported : bool) (outcome : HintsOutcome),
          let a := detectAsync_merge r opts supported outcome in
          web_flag_agrees a /\ os_flags_agree a).
Proof.
  intros env opts r.
  assert (Hweb : web_flag_agrees r).
  { unfold web_flag_agrees. subst r.
    destruct (window_defined env) eqn:W.
    - pose proof (performDetection_window env opts W) as (Ht & Hn & Htg & _).
      rewrite Ht.
      assert (Hw : isWeb (performDetection env opts)
                   = negb (native_verdict env) && negb (detectTelegram env opts)).
      { unfold performDetection. rewrite W. cbn [negb].
        destruct (telegram_override _ _ _ _) as [[fd fm] fo]. reflexivity. }
      rewrite Hw. destruct (native_verdict env), (detectTelegram env opts),
        (detectPWA env); reflexivity.
    - rewrite (performDetection_server env opts W). reflexivity. }
  assert (Hos : os_flags_agree r).
  { unfold os_flags_agree. subst r.
    destruct (window_defined env) eqn:W.
    - unfold performDetection. rewrite W. cbn [negb].
      destruct (telegram_override _ _ _ _) as [[fd fm] fo].
      repeat split.
    - rewrite (performDetection_server env opts W). repeat split. }
  assert (Hmob : isMobile r = is_mobile_device (device r)
                 /\ isDesktop r = negb (isMobile r)).
  { subst r. destruct (window_defined env) eqn:W.
    - unfold performDetection. rewrite W. cbn [negb].
      match goal with
      | |- context [telegram_override ?t ?p ?d ?o] =>
          pose proof (telegram_override_mobile t p d o) as Hm;
          destruct (telegram_override t p d o) as [[fd fm] fo]
      end.
      split; [exact Hm | reflexivity].
    - rewrite (performDetection_server env opts W). split; reflexivity. }
  split; [exact Hweb|]. split; [exact (proj1 Hmob)|].
  split; [exact (proj2 Hmob)|]. split; [exact Hos|].
  intros supported outcome a. subst a.
  unfold detectAsync_merge.
  destruct (negb supported || _); [split; assumption|].
  destruct outcome as [| |h]; [split; assumption | split; assumption |].
  split; [exact Hweb|]. unfold os_flags_agree. repeat split.
Qed.

(** C4. The resolver gives every input exactly one primary type (a value of
    [PlatformType]) by the fixed precedence native > mini app > pwa > web,
    where native needs both the native presence check and the runtime flag
    [capacitor.isNativePlatform === true] (presence alone never gives
    [native]). Once native holds, no change of any other input (mini app,
    PWA, user agent, ...) changes the type; once native fails and the mini
    app check holds, no change of the PWA or other inputs changes it. *)
Theorem primary_type_priority :
  (forall (env : Env) (opts : Options),
      let t := type (performDetection env opts) in
      (t = Type_native <-> detectNative env = true
                           /\ capacitor_runtime_flag (getCapacitorInfo env) = true)
      /\ (t = Type_tma <-> native_verdict env = false /\ detectTelegram env opts = true)
      /\ (t = Type_pwa <-> native_verdict env = false /\ detectTelegram env opts = false
                          /\ detectPWA env = true)
      /\ (t = Type_web <-> native_verdict env = false /\ detectTelegram env opts = false
                          /\ detectPWA env = false))
  /\ (forall (env1 env2 : Env) (opts1 opts2 : Options),
        window_defined env1 = window_defined env2 -> native env1 = native env2 ->
        native_verdict env1 = true ->
        type (performDetection env1 opts1) = Type_native
        /\ type (performDetection env2 opts2) = Type_native)
  /\ (forall (env1 env2 : Env) (opts1 opts2 : Options),
        window_defined env1 = window_defined env2 -> native env1 = native env2 ->
        tg env1 = tg env2 -> opt_telegramWebApp opts1 = opt_telegramWebApp opts2 ->
        native_verdict env1 = false -> detectTelegram env1 opts1 = true ->
        type (performDetection env1 opts1) = Type_tma
        /\ type (performDetection env2 opts2) = Type_tma).
Proof.
  split; [|split].
  - intros env opts t. subst t. rewrite type_performDetection.
    unfold native_verdict.
    destruct (detectNative env), (capacitor_runtime_flag (getCapacitorInfo env)),
      (detectTelegram env opts), (detectPWA env); cbn;
      repeat split; intuition congruence.
  - intros env1 env2 opts1 opts2 W N V.
    pose proof (native_verdict_depends env1 env2 W N) as V2.
    rewrite !type_performDetection, <- V2, V. split; reflexivity.
  - intros env1 env2 opts1 opts2 W N T O V G.
    pose proof (native_verdict_depends env1 env2 W N) as V2.
    pose proof (detectTelegram_depends env1 env2 opts1 opts2 W T O) as G2.
    rewrite !type_performDetection, <- V2, <- G2, V, G. split; reflexivity.
Qed.

(** Witness for C4: a Capacitor device app stays native when the mini-app
    and PWA evidence change, and a Telegram client stays a mini app when the
    PWA evidence changes. *)
Lemma primary_type_priority_witness :
  let o := construct_options "" "" None None None in
  (type (performDetection (sample_env capacitor_device no_tg browser_tab) o) = Type_native
   /\ type (performDetection (sample_env capacitor_device tg_client standalone_pwa) o)
      = Type_native)
  /\ (type (performDetection (sample_env no_native tg_client browser_tab) o) = Type_tma
      /\ type (performDetection (sample_env no_native tg_client standalone_pwa) o)
         = Type_tma).
Proof.
  intros o. split.
  - apply (proj1 (proj2 primary_type_priority)); reflexivity.
  - apply (proj2 (proj2 primary_type_priority)); reflexivity.
Defined.

(** C10. With only a legacy hybrid-runtime global ([cordova] or
    [phonegap]) and no [Capacitor] global, native presence is detected but
    no Capacitor record exists, so [isNative] is false and the primary type
    is never [native]. *)
Theorem legacy_runtime_never_native :
  forall (env : Env) (opts : Options),
    window_defined env = true ->
    win_Capacitor env.(native) = None ->
    win_cordova env.(native) = true \/ win_phonegap env.(native) = true ->
    let r := performDetection env opts in
    detectNative env = true /\ getCapacitorInfo env = None
    /\ capacitor r = None /\ isNative r = false /\ type r <> Type_native.
Proof.
  intros env opts W C L r.
  assert (Hd : detectNative env = true).
  { unfold detectNative. rewrite W, C. cbn.
    destruct L as [-> | ->]; [reflexivity | now rewrite orb_true_r]. }
  assert (Hc : getCapacitorInfo env = None).
  { unfold getCapacitorInfo. now rewrite W, C. }
  assert (Hv : native_verdict env = false).
  { unfold native_verdict. now rewrite Hc, andb_false_r. }
  pose proof (performDetection_window env opts W) as (Ht & Hn & _ & _ & _ & _ & Hcap).
  subst r. split; [exact Hd|]. split; [exact Hc|].
  split; [now rewrite Hcap|]. split; [now rewrite Hn|].
  rewrite Ht, Hv. destruct (detectTelegram env opts), (detectPWA env); discriminate.
Qed.

(** Witness for C10: a Cordova shell installed as a standalone app. *)
Lemma legacy_runtime_never_native_witness :
  let env := sample_env (mkNativeEvidence None true false false) no_tg standalone_pwa in
  let r := performDetection env (construct_options "" "" None None None) in
  detectNative env = true /\ getCapacitorInfo env = None
  /\ capacitor r = None /\ isNative r = false /\ type r <> Type_native.
Proof.
  intros env r. apply legacy_runtime_never_native; [reflexivity | reflexivity | now left].
Defined.

(* ------------------------------------------------------------------ *)
(** ** Percent-encoding facts *)

Module UrlFacts.

Lemma encode_char_ok_all (c : ascii) : encode_char_ok c = true.
Proof.
  destruct c as [[] [] [] [] [] [] [] []]; vm_compute; reflexivity.
Qed.

Lemma encode_uri_char_decode (c : ascii) (rest : string) :
  percent_decode (encode_uri_char c ++ rest) = String c (percent_decode rest).
Proof.
  pose proof (encode_char_ok_all c) as H. unfold encode_char_ok in H.
  destruct (encode_uri_char c) as [|d [|h [|l [|x r]]]]; try discriminate.
  - apply andb_prop in H as [H1 H2]. apply Ascii.eqb_eq in H1. subst d.
    apply negb_true_iff in H2. simpl. now rewrite H2.
  - apply andb_prop in H as [H1 H2]. apply Ascii.eqb_eq in H1. subst d.
    simpl. destruct (hex_value h), (hex_value l); try discriminate.
    apply Ascii.eqb_eq in H2. rewrite <- H2. f_equal.
Qed.

Lemma encode_uri_char_safe (c : ascii) :
  string_forall uri_safe (encode_uri_char c) = true.
Proof.
  destruct c as [[] [] [] [] [] [] [] []]; vm_compute; reflexivity.
Qed.

Lemma string_forall_app (p : ascii -> bool) (s t : string) :
  string_forall p (s ++ t) = string_forall p s && string_forall p t.
Proof.
  induction s as [|c s IH]; simpl; [reflexivity|].
  rewrite IH. apply andb_assoc.
Qed.

Lemma string_forall_impl (p q : ascii -> bool) (s : string) :
  (forall c, p c = true -> q c = true) ->
  string_forall p s = true -> string_forall q s = true.
Proof.
  intros Hpq. induction s as [|c s IH]; simpl; [reflexivity|].
  intros H. apply andb_prop in H as [H1 H2]. now rewrite (Hpq c H1), (IH H2).
Qed.

Lemma decode_encodeURIComponent (s : string) :
  percent_decode (encodeURIComponent s) = s.
Proof.
  induction s as [|c s IH]; [reflexivity|].
  simpl. now rewrite encode_uri_char_decode, IH.
Qed.

Lemma encodeURIComponent_safe (s : string) :
  string_forall uri_safe (encodeURIComponent s) = true.
Proof.
  induction s as [|c s IH]; [reflexivity|].
  simpl. now rewrite string_forall_app, encode_uri_char_safe, IH.
Qed.

Lemma uri_safe_not (c : ascii) (x : ascii) :
  In x ["&"; "+"; "#"; "="]%char -> uri_safe c = true -> Ascii.eqb c x = false.
Proof.
  intros Hx. destruct c as [[] [] [] [] [] [] [] []];
    simpl in Hx; destruct Hx as [<-|[<-|[<-|[<-|[]]]]]; vm_compute;
    first [reflexivity | discriminate].
Qed.

Lemma split_on_none (sep : ascii) (s : string) :
  string_forall (fun c => negb (Ascii.eqb c sep)) s = true -> split_on sep s = [s].
Proof.
  induction s as [|c s IH]; [reflexivity|].
  simpl. intros H. apply andb_prop in H as [H1 H2].
  apply negb_true_iff in H1. rewrite H1, (IH H2). reflexivity.
Qed.

Lemma replace_plus_none (s : string) :
  string_forall (fun c => negb (Ascii.eqb c "+")) s = true -> replace_plus s = s.
Proof.
  induction s as [|c s IH]; [reflexivity|].
  simpl. intros H. apply andb_prop in H as [H1 H2].
  apply negb_true_iff in H1. now rewrite H1, (IH H2).
Qed.

Lemma encoded_avoids (x : ascii) (s : string) :
  In x ["&"; "+"; "#"; "="]%char ->
  string_forall (fun c => negb (Ascii.eqb c x)) (encodeURIComponent s) = true.
Proof.
  intros Hx. apply (string_forall_impl uri_safe); [|apply encodeURIComponent_safe].
  intros c Hc. now rewrite (uri_safe_not c x Hx Hc).
Qed.

(** The query string [start=<encodeURIComponent u>], parsed as
    [URLSearchParams] does, has the single entry [start] with value [u]. *)
Lemma parse_start_param (u : string) :
  urlencoded_parse ("start=" ++ encodeURIComponent u) = [("start", u)].
Proof.
  unfold urlencoded_parse.
  rewrite split_on_none.
  2:{ simpl. apply (encoded_avoids "&"). simpl; auto. }
  cbn [filter]. simpl (negb (String.eqb _ _)). cbn [map].
  unfold parse_sequence. simpl (split_first _ _). cbv iota beta.
  rewrite (replace_plus_none (encodeURIComponent u)).
  2:{ apply (encoded_avoids "+"). simpl; auto. }
  rewrite decode_encodeURIComponent. reflexivity.
Qed.

End UrlFacts.

Import UrlFacts.

(** C8. In a browser context, [shouldShowTMAWarning] is true exactly when
    the domain mode is [tma] and mini-app presence is false; a hostname
    starting with [tg.] gives mode [tma]. When mini-app presence is false,
    [checkTMAAvailability bot] answers unavailable with the deep link
    [https://t.me/<bot>?start=<encodeURIComponent(location.href)>]; the
    encoded part contains no [&], [+], [#] or [=], and the query
    [start=...] parses (decoding once) to the single parameter [start]
    whose value is exactly [location.href]. *)
Theorem tma_warning_and_deep_link :
  (forall (env : Env) (opts : Options),
      window_defined env = true ->
      let r := performDetection env opts in
      shouldShowTMAWarning r = true
      <-> domainMode r = Domain_tma /\ detectTelegram env opts = false)
  /\ (forall host : string, startsWith "tg." host = true -> detectDomainMode host = Domain_tma)
  /\ (forall (env : Env) (opts : Options) (bot : string),
        window_defined env = true -> detectTelegram env opts = false ->
        let a := checkTMAAvailability env opts bot in
        isAvailable a = false
        /\ botUrl a = Some ("https://t.me/" ++ bot ++ "?start="
                            ++ encodeURIComponent (loc_href env))
        /\ Forall (fun x => string_forall (fun c => negb (Ascii.eqb c x))
                              (encodeURIComponent (loc_href env)) = true)
                  ["&"; "+"; "#"; "="]%char
        /\ urlencoded_parse ("start=" ++ encodeURIComponent (loc_href env))
           = [("start", loc_href env)]).
Proof.
  split; [|split].
  - intros env opts W r. subst r.
    pose proof (performDetection_window env opts W) as (_ & _ & _ & _ & Hd & Hs & _).
    rewrite Hs, Hd.
    destruct (detectDomainMode _), (detectTelegram env opts); cbn;
      split; intuition congruence.
  - intros host H. unfold detectDomainMode.
    destruct (startsWith "app." host) eqn:A; [|now rewrite H].
    destruct host as [|c1 host]; [discriminate|].
    assert (Hc : forall a p, startsWith (String a p) (String c1 host)
                             = Ascii.eqb a c1 && startsWith p host) by reflexivity.
    rewrite Hc in A, H.
    apply andb_prop in A as [A _]. apply andb_prop in H as [H _].
    apply Ascii.eqb_eq in A, H. congruence.
  - intros env opts bot W G a. subst a. unfold checkTMAAvailability.
    rewrite G, W. cbn [isAvailable botUrl].
    split; [reflexivity|]. split; [reflexivity|]. split.
    + repeat constructor; apply encoded_avoids; simpl; auto 6.
    + apply parse_start_param.
Qed.

(** Witness for C8: [tg.example.com] opened in a plain browser tab. *)
Lemma tma_warning_and_deep_link_witness :
  let env := sample_env no_native no_tg browser_tab in
  let opts := construct_options "" "" None None None in
  shouldShowTMAWarning (performDetection env opts) = true
  /\ botUrl (checkTMAAvailability env opts "my_bot")
     = Some ("https://t.me/my_bot?start=" ++ encodeURIComponent "https://tg.example.com/app?x=1")
  /\ urlencoded_parse ("start=" ++ encodeURIComponent "https://tg.example.com/app?x=1")
     = [("start", "https://tg.example.com/app?x=1")].
Proof.
  intros env opts.
  destruct tma_warning_and_deep_link as [H1 [_ H3]].
  split; [|split].
  - apply (proj2 (H1 env opts eq_refl)). split; reflexivity.
  - exact (proj1 (proj2 (H3 env opts "my_bot" eq_refl eq_refl))).
  - exact (proj2 (proj2 (proj2 (H3 env opts "my_bot" eq_refl eq_refl)))).
Defined.

(** C2 (code bug). With [cacheTTL: 0], which the README documents as
    "Disable caching", [detect()] still caches: [0 || 5000] makes the TTL
    5000 ms, so a second call 1 ms later returns the cached object. *)
Lemma cacheTTL_zero_still_caches :
  let d0 := Cache.new_detector (construct_options "" "" None None (Some 0%Z)) in
  let '(r1, d1) := Cache.detect 1700000000000 1700000000000 d0 in
  let '(r2, _) := Cache.detect 1700000000001 1700000000001 d1 in
  r1 = r2 /\ Cache.effective_ttl (Cache.options d0) = 5000%Z.
Proof. split; reflexivity. Qed.

Module CacheFacts.
Import Cache.


End CacheFacts.

(* ------------------------------------------------------------------ *)
(** ** Facts about [verifyTelegramInitData] *)

Module InitDataFacts.
Import InitData.

Lemma verify_signature_missing (rt : Runtime) (d : InitDataInput)
    (t : option string) :
  payload_present d = false ->
  verify_signature rt d t = fail MISSING_INIT_DATA "initData payload is required".
Proof.
  destruct d as [|s|e]; cbn [payload_present]; try discriminate; [reflexivity|].
  intros H. apply negb_false_iff in H. unfold verify_signature. now rewrite H.
Qed.

Lemma verify_signature_present (rt : Runtime) (d : InitDataInput)
    (t : option string) :
  payload_present d = true ->
  verify_signature rt d t
  = (present_token <- (if match t with Some t => truthy t | None => false end
                       then ret tt
                       else fail MISSING_BOT_TOKEN "Telegram bot token is required") ;;
     let token := match t with Some t => t | None => EmptyString end in
     hash <- match get (payload_params d) "hash" with
             | Some h => if truthy h then ret h
                         else fail MISSING_HASH "hash parameter is required in initData"
             | None => fail MISSING_HASH "hash parameter is required in initData"
             end ;;
     let dataCheckString := buildDataCheckString (payload_params d) in
     match rt.(crypto) with
     | None => fail CRYPTO_UNAVAILABLE
                 "Web Crypto API (crypto.subtle) is not available in this environment"
     | Some hmacSha256 =>
         let computedHex := bytesToHex (hmacSha256 (hmacSha256 (encode "WebAppData")
                                         (encode token)) (encode dataCheckString)) in
         if negb (timingSafeEqual computedHex (toLowerCase hash))
         then fail HASH_MISMATCH "initData hash does not match Telegram signature"
         else ret (payload_params d, hash, dataCheckString, raw_string d)
     end).
Proof.
  destruct d as [|s|e]; cbn [payload_present]; try discriminate; [|reflexivity].
  intros H. apply negb_true_iff in H. unfold verify_signature. now rewrite H.
Qed.

Lemma xor_accumulate_refl (acc : Z) (a : string) : xor_accumulate acc a a = acc.
Proof.
  revert acc; induction a as [|c a IH]; intros acc; [reflexivity|].
  simpl. now rewrite Z.lxor_nilpotent, Z.lor_0_r, IH.
Qed.

Lemma timingSafeEqual_refl (a : string) : timingSafeEqual a a = true.
Proof.
  unfold timingSafeEqual. rewrite Nat.eqb_refl. cbn [negb].
  now rewrite xor_accumulate_refl.
Qed.

Lemma lower_hex_lower (n : nat) : (n < 16)%nat -> lower_char (hex_lower n) = hex_lower n.
Proof.
  intros H. do 16 (destruct n as [|n]; [reflexivity|]). lia.
Qed.

Lemma toLowerCase_bytesToHex (bs : list Z) :
  Forall (fun b => 0 <= b < 256)%Z bs -> toLowerCase (bytesToHex bs) = bytesToHex bs.
Proof.
  induction bs as [|b bs IH]; intros F; [reflexivity|].
  inversion F as [|? ? Hb Hbs]; subst. cbn [bytesToHex fold_right toLowerCase].
  fold (bytesToHex bs). rewrite (IH Hbs).
  assert (Hn : (Z.to_nat b < 256)%nat) by lia.
  rewrite !lower_hex_lower; [reflexivity | |].
  - apply Nat.mod_upper_bound. discriminate.
  - apply Nat.Div0.div_lt_upper_bound. lia.
Qed.

Lemma bytesToHex_truthy (bs : list Z) : bs <> [] -> truthy (bytesToHex bs) = true.
Proof. destruct bs; [congruence | reflexivity]. Qed.

Lemma string_ltb_asym (a b : string) : string_ltb a b = true -> string_ltb b a = false.
Proof.
  revert b; induction a as [|x a IH]; intros [|y b]; simpl; try discriminate;
    [reflexivity|].
  destruct (nat_of_ascii x <? nat_of_ascii y)%nat eqn:L1;
  destruct (nat_of_ascii y <? nat_of_ascii x)%nat eqn:L2; try discriminate.
  - apply Nat.ltb_lt in L1, L2. lia.
  - reflexivity.
  - intros H. now apply IH.
Qed.

Lemma insert_sorted_hd (z x : string) (l : list string) :
  HdRel str_le z l -> str_le z x -> HdRel str_le z (insert_sorted x l).
Proof.
  intros Hd Hz. destruct l as [|y ys]; simpl.
  - now constructor.
  - destruct (string_ltb y x).
    + inversion Hd; subst. now constructor.
    + now constructor.
Qed.

Lemma insert_sorted_sorted (x : string) (l : list string) :
  Sorted str_le l -> Sorted str_le (insert_sorted x l).
Proof.
  induction l as [|y ys IH]; intros S; simpl.
  - repeat constructor.
  - destruct (string_ltb y x) eqn:L.
    + inversion S as [|? ? Sys Hd]; subst. constructor; [now apply IH|].
      apply insert_sorted_hd; [assumption|].
      unfold str_le. now apply string_ltb_asym.
    + constructor; [exact S|]. constructor. exact L.
Qed.

Lemma insert_sorted_perm (x : string) (l : list string) :
  Permutation (x :: l) (insert_sorted x l).
Proof.
  induction l as [|y ys IH]; simpl; [reflexivity|].
  destruct (string_ltb y x); [|reflexivity].
  etransitivity; [apply perm_swap|]. now constructor.
Qed.

Lemma sort_strings_spec (l : list string) :
  Sorted str_le (sort_strings l) /\ Permutation l (sort_strings l).
Proof.
  induction l as [|x xs [IHs IHp]]; simpl; [split; constructor|].
  split; [now apply insert_sorted_sorted|].
  etransitivity; [constructor; exact IHp|]. apply insert_sorted_perm.
Qed.

Lemma buildDataCheckString_canonical (entries : list (string * string)) :
  exists L, buildDataCheckString entries = join (String (ascii_of_nat 10) EmptyString) L
            /\ Sorted str_le L /\ Permutation (rendered_fields entries) L.
Proof.
  exists (sort_strings (rendered_fields entries)). split; [reflexivity|].
  apply sort_strings_spec.
Qed.

End InitDataFacts.

Import InitData InitDataFacts.

Import InitDataSamples.

(** C5. Freshness, for a payload that passed the signature checks and whose
    [auth_date] is a number [a] (with [now] the current time and [maxAge]
    the effective [maxAgeSeconds]): if [maxAge > 0] and [now - a > maxAge]
    the result is [EXPIRED]; at the boundary [now - a = maxAge] (a non-
    negative age limit) the freshness checks pass and the result is that of
    the remaining field checks; with [maxAge = 0] no age is rejected; and
    an [auth_date] more than 60 s in the future gives [INVALID_AUTH_DATE]
    whatever [maxAge] is. *)
Theorem freshness_rules (rt : Runtime) (d : InitDataInput) (t : option string)
    (o : ValidationOptions) (params : list (string * string))
    (h dcs rawString r : string) (a : Z) :
  verify_signature rt d t = inr (params, h, dcs, rawString) ->
  get params "auth_date" = Some r -> truthy r = true -> number_of rt r = Some a ->
  let now := current_time rt o in
  let maxAge := max_age o in
  let res := verifyTelegramInitData rt d t o in
  ((0 < maxAge)%Z -> (now - a > maxAge)%Z -> res = Invalid EXPIRED "initData is expired")
  /\ ((0 <= maxAge)%Z -> (now - a = maxAge)%Z ->
      res = verify_fields rt o params a h dcs rawString)
  /\ (maxAge = 0%Z -> (a - now <= 60)%Z ->
      res = verify_fields rt o params a h dcs rawString)
  /\ ((a - now > 60)%Z ->
      res = Invalid INVALID_AUTH_DATE "auth_date is more than 60 seconds in the future").
Proof.
  intros Hs Hg Ht Hn now maxAge res.
  assert (Hres : res = if (0 <? maxAge)%Z && (maxAge <? now - a)%Z
                       then Invalid EXPIRED "initData is expired"
                       else if (60 <? a - now)%Z
                       then Invalid INVALID_AUTH_DATE
                              "auth_date is more than 60 seconds in the future"
                       else verify_fields rt o params a h dcs rawString).
  { subst res now maxAge. unfold verifyTelegramInitData. rewrite Hs.
    unfold verify_freshness. rewrite Hg, Ht, Hn.
    destruct (_ && _); [reflexivity|]. destruct (60 <? _)%Z; reflexivity. }
  clearbody now maxAge res. subst res.
  split; [|split; [|split]]; intros H1; try intros H2.
  - replace ((0 <? maxAge)%Z && (maxAge <? now - a)%Z) with true; [reflexivity|].
    symmetry. apply andb_true_iff. split; apply Z.ltb_lt; lia.
  - replace ((0 <? maxAge)%Z && (maxAge <? now - a)%Z) with false.
    2:{ symmetry. apply andb_false_iff. right. apply Z.ltb_ge. lia. }
    replace (60 <? a - now)%Z with false; [reflexivity|].
    symmetry. apply Z.ltb_ge. lia.
  - replace ((0 <? maxAge)%Z && (maxAge <? now - a)%Z) with false.
    2:{ symmetry. apply andb_false_iff. left. apply Z.ltb_ge. lia. }
    replace (60 <? a - now)%Z with false; [reflexivity|].
    symmetry. apply Z.ltb_ge. lia.
  - replace ((0 <? maxAge)%Z && (maxAge <? now - a)%Z) with false.
    2:{ destruct (0 <? maxAge)%Z eqn:E; [|reflexivity]. apply Z.ltb_lt in E.
        symmetry. apply Z.ltb_ge. lia. }
    replace (60 <? a - now)%Z with true; [reflexivity|].
    symmetry. apply Z.ltb_lt. lia.
Qed.

(** Witness for C5: the sample payload, checked 700 s after [auth_date]
    (expired under the default 600 s), 600 s after (the boundary, accepted)
    and, with [maxAgeSeconds: 0], 10^6 s after (accepted). *)
Lemma freshness_rules_witness :
  verifyTelegramInitData sample_rt (Init_string sample_payload) (Some sample_token)
    (mkValidationOptions (Some 1700000700%Z) None false)
  = Invalid EXPIRED "initData is expired"
  /\ verifyTelegramInitData sample_rt (Init_string sample_payload) (Some sample_token)
       (mkValidationOptions (Some 1700000600%Z) None false)
     = verify_fields sample_rt (mkValidationOptions (Some 1700000600%Z) None false)
         (payload_params (Init_string sample_payload)) 1700000000%Z sample_hash
         (buildDataCheckString (payload_params (Init_string sample_payload)))
         (trim sample_payload)
  /\ verifyTelegramInitData sample_rt (Init_string sample_payload) (Some sample_token)
       (mkValidationOptions (Some 1701000000%Z) (Some 0%Z) false)
     = verify_fields sample_rt (mkValidationOptions (Some 1701000000%Z) (Some 0%Z) false)
         (payload_params (Init_string sample_payload)) 1700000000%Z sample_hash
         (buildDataCheckString (payload_params (Init_string sample_payload)))
         (trim sample_payload).
Proof.
  split; [|split].
  - refine (proj1 (freshness_rules sample_rt (Init_string sample_payload)
             (Some sample_token) (mkValidationOptions (Some 1700000700%Z) None false)
             (payload_params (Init_string sample_payload)) sample_hash
             (buildDataCheckString (payload_params (Init_string sample_payload)))
             (trim sample_payload) "1700000000" 1700000000%Z _ _ _ _) _ _);
      try vm_compute; reflexivity.
  - refine (proj1 (proj2 (freshness_rules sample_rt (Init_string sample_payload)
             (Some sample_token) (mkValidationOptions (Some 1700000600%Z) None false)
             (payload_params (Init_string sample_payload)) sample_hash
             (buildDataCheckString (payload_params (Init_string sample_payload)))
             (trim sample_payload) "1700000000" 1700000000%Z _ _ _ _)) _ _);
      try vm_compute; try reflexivity; discriminate.
  - refine (proj1 (proj2 (proj2 (freshness_rules sample_rt (Init_string sample_payload)
             (Some sample_token) (mkValidationOptions (Some 1701000000%Z) (Some 0%Z) false)
             (payload_params (Init_string sample_payload)) sample_hash
             (buildDataCheckString (payload_params (Init_string sample_payload)))
             (trim sample_payload) "1700000000" 1700000000%Z _ _ _ _))) _ _);
      try vm_compute; try reflexivity; discriminate.
Defined.

(** C6 (counterexample). The sample signed payload with one leading
    space verifies, but [data.raw] is the trimmed string, not the original
    input. *)
Lemma roundtrip_raw_not_original :
  exists data,
    verifyTelegramInitData sample_rt (Init_string (" " ++ sample_payload))
      (Some sample_token) sample_options = Ok data
    /\ raw data <> " " ++ sample_payload
    /\ raw data = sample_payload.
Proof.
  remember (verifyTelegramInitData sample_rt (Init_string (" " ++ sample_payload))
              (Some sample_token) sample_options) as res eqn:E.
  vm_compute in E. subst res.
  eexists; split; [reflexivity|]. split; [|reflexivity].
  cbn. discriminate.
Qed.

Lemma payload_params_blank (s : string) :
  trim s = EmptyString -> payload_params (Init_string s) = [].
Proof. intros H. unfold payload_params, raw_string. now rewrite H. Qed.

Lemma verify_signature_signed (rt : Runtime) (hm : list Z -> list Z -> list Z)
    (s secret : string) :
  crypto rt = Some hm ->
  truthy secret = true ->
  let entries := payload_params (Init_string s) in
  let digest := hm (hm (encode "WebAppData") (encode secret))
                   (encode (buildDataCheckString entries)) in
  digest <> [] -> Forall (fun b => (0 <= b < 256)%Z) digest ->
  let hx := bytesToHex digest in
  get entries "hash" = Some hx ->
  verify_signature rt (Init_string s) (Some secret)
  = inr (entries, hx, buildDataCheckString entries, trim s).
Proof.
  intros Hc Ht entries digest Hne Hr hx Hg.
  assert (Hp : payload_present (Init_string s) = true).
  { cbn [payload_present]. destruct (String.eqb (trim s) "") eqn:E; [|reflexivity].
    apply String.eqb_eq in E. subst entries. rewrite (payload_params_blank s E) in Hg.
    discriminate. }
  rewrite (verify_signature_present rt _ _ Hp). cbv iota beta.
  rewrite Ht. cbn [bind ret]. fold entries. rewrite Hg.
  assert (Hth : truthy hx = true) by (unfold hx; now apply bytesToHex_truthy).
  assert (Hl : toLowerCase hx = hx) by (unfold hx; now apply toLowerCase_bytesToHex).
  rewrite Hth. cbn [bind ret]. rewrite Hc. cbv zeta. fold entries. fold digest. fold hx.
  rewrite Hl, timingSafeEqual_refl. reflexivity.
Qed.

Lemma verify_fields_ok (rt : Runtime) (o : ValidationOptions)
    (params : list (string * string)) (a : Z) (h dcs rawString : string) :
  (forall f m, In f ["user"; "receiver"; "chat"] ->
               parseJsonField rt (get params f) f <> Field_error m) ->
  (requireUser o = true ->
   json_or_undefined (parseJsonField rt (get params "user") "user") <> None) ->
  exists data, verify_fields rt o params a h dcs rawString = Ok data
               /\ auth_date data = a /\ hash data = h
               /\ dataCheckString data = dcs /\ raw data = rawString.
Proof.
  intros Hj Hreq. unfold verify_fields.
  destruct (parseJsonField rt (get params "user") "user") as [|ju|mu] eqn:U;
    [| |exfalso; apply (Hj "user" mu); [simpl; auto | exact U]];
  (destruct (parseJsonField rt (get params "receiver") "receiver") as [|jr|mr] eqn:Rc;
    [| |exfalso; apply (Hj "receiver" mr); [simpl; auto | exact Rc]]);
  (destruct (parseJsonField rt (get params "chat") "chat") as [|jc|mc] eqn:C;
    [| |exfalso; apply (Hj "chat" mc); [simpl; auto 6 | exact C]]);
  (destruct (requireUser o && negb _) eqn:E;
    [apply andb_true_iff in E as [E1 E2]; exfalso; apply (Hreq E1); revert E2;
     match goal with |- context [json_or_undefined ?x] =>
       destruct (json_or_undefined x); [discriminate | reflexivity] end
    | eexists; repeat split]).
Qed.

(** C6. Round trip, for a payload string [s], a non-empty secret and a
    runtime whose HMAC-SHA256 gives a non-empty list of bytes: if the first
    [hash] entry of [s] is the lowercase hex of
    [HMAC(HMAC("WebAppData", secret), checkString)], where [checkString] is
    the newline-joined, code-unit-sorted list of the [key=value] renderings
    of all non-[hash] entries, and the payload is fresh, its embedded JSON
    parses and a required user is present, then [verifyTelegramInitData]
    answers ok with [data.auth_date] the payload's [auth_date],
    [data.raw] equal to [s.trim()] (the original string when it has no
    surrounding white space) and [data.dataCheckString] the canonical check
    string. *)
Theorem roundtrip_verified (rt : Runtime) (hm : list Z -> list Z -> list Z)
    (o : ValidationOptions) (s secret r : string) (a : Z) :
  crypto rt = Some hm ->
  truthy secret = true ->
  let entries := payload_params (Init_string s) in
  let digest := hm (hm (encode "WebAppData") (encode secret))
                   (encode (buildDataCheckString entries)) in
  digest <> [] -> Forall (fun b => (0 <= b < 256)%Z) digest ->
  get entries "hash" = Some (bytesToHex digest) ->
  get entries "auth_date" = Some r -> truthy r = true -> number_of rt r = Some a ->
  ~ ((0 < max_age o)%Z /\ (max_age o < current_time rt o - a)%Z) ->
  (a - current_time rt o <= 60)%Z ->
  (forall f m, In f ["user"; "receiver"; "chat"] ->
               parseJsonField rt (get entries f) f <> Field_error m) ->
  (requireUser o = true ->
   json_or_undefined (parseJsonField rt (get entries "user") "user") <> None) ->
  exists data,
    verifyTelegramInitData rt (Init_string s) (Some secret) o = Ok data
    /\ auth_date data = a
    /\ raw data = trim s
    /\ (trim s = s -> raw data = s)
    /\ dataCheckString data = buildDataCheckString entries
    /\ exists L, dataCheckString data = join (String (ascii_of_nat 10) EmptyString) L
                 /\ Sorted str_le L /\ Permutation (rendered_fields entries) L.
Proof.
  intros Hc Ht entries digest Hne Hbytes Hh Hg Hr Hn Hage Hfut Hj Hreq.
  unfold verifyTelegramInitData.
  rewrite (verify_signature_signed rt hm s secret Hc Ht Hne Hbytes Hh).
  unfold verify_freshness. fold entries. rewrite Hg, Hr, Hn.
  replace ((0 <? max_age o)%Z && (max_age o <? current_time rt o - a)%Z) with false.
  2:{ symmetry. apply not_true_iff_false. intros E.
      apply andb_true_iff in E as [E1 E2]. apply Z.ltb_lt in E1, E2. tauto. }
  replace (60 <? a - current_time rt o)%Z with false.
  2:{ symmetry. apply Z.ltb_ge. lia. }
  cbn [bind ret].
  destruct (verify_fields_ok rt o entries a (bytesToHex digest)
              (buildDataCheckString entries) (trim s) Hj Hreq)
    as (data & E & Ha & _ & Hd & Hraw).
  exists data. split; [exact E|]. split; [exact Ha|].
  split; [exact Hraw|]. split; [intros Hs; now rewrite Hraw|].
  split; [exact Hd|]. rewrite Hd. apply buildDataCheckString_canonical.
Qed.

(** Witness for C6: the sample payload, signed with the file's SHA-256, at
    [Date.now()] 100 s after [auth_date]. *)
Lemma roundtrip_verified_witness :
  exists data,
    verifyTelegramInitData sample_rt (Init_string sample_payload) (Some sample_token)
      sample_options = Ok data
    /\ auth_date data = 1700000000%Z
    /\ raw data = trim sample_payload
    /\ (trim sample_payload = sample_payload -> raw data = sample_payload)
    /\ dataCheckString data = buildDataCheckString (payload_params (Init_string sample_payload))
    /\ exists L, dataCheckString data = join (String (ascii_of_nat 10) EmptyString) L
                 /\ Sorted str_le L
                 /\ Permutation (rendered_fields (payload_params (Init_string sample_payload))) L.
Proof.
  apply (roundtrip_verified sample_rt Sha256.hmac_sha256 sample_options sample_payload
           sample_token "1700000000" 1700000000%Z).
  - reflexivity.
  - reflexivity.
  - vm_compute. discriminate.
  - vm_compute. repeat constructor; intros H; discriminate.
  - vm_compute. reflexivity.
  - vm_compute. reflexivity.
  - reflexivity.
  - vm_compute. reflexivity.
  - vm_compute. intros [_ H]. discriminate.
  - vm_compute. intros H. discriminate.
  - intros f m [<-|[<-|[<-|[]]]]; vm_compute; discriminate.
  - intros H. discriminate.
Defined.

(** C9 (counterexample). A white-space-only payload string is not empty,
    and with an empty secret the answer is [MISSING_INIT_DATA], not
    [MISSING_BOT_TOKEN]. *)
Lemma blank_payload_empty_secret :
  String.length "   " <> 0%nat
  /\ verifyTelegramInitData sample_rt (Init_string "   ") (Some "") sample_options
     = Invalid MISSING_INIT_DATA "initData payload is required".
Proof. split; [discriminate | reflexivity]. Qed.

(** C9. [verifyTelegramInitData] is total and its failures are values
    [Invalid code message] with [code] from the fixed set; the checks come
    in order: an absent payload or a string that is blank after [trim()]
    gives [MISSING_INIT_DATA] whatever the secret; otherwise (a non-blank
    string or any [URLSearchParams]) an absent or empty secret gives
    [MISSING_BOT_TOKEN]; with a secret, a first [hash] entry that is absent
    or empty gives [MISSING_HASH]; with a hash and no crypto primitive the
    result is [CRYPTO_UNAVAILABLE]. *)
Theorem verify_failures_structured :
  (forall rt d t o, match verifyTelegramInitData rt d t o with
                    | Ok _ => True
                    | Invalid e _ => In e all_codes
                    end)
  /\ (forall rt d t o, payload_present d = false ->
        verifyTelegramInitData rt d t o
        = Invalid MISSING_INIT_DATA "initData payload is required")
  /\ (forall rt d t o, payload_present d = true -> (t = None \/ t = Some EmptyString) ->
        verifyTelegramInitData rt d t o
        = Invalid MISSING_BOT_TOKEN "Telegram bot token is required")
  /\ (forall rt d tok o, payload_present d = true -> truthy tok = true ->
        match get (payload_params d) "hash" with
        | Some h => truthy h = false
        | None => True
        end ->
        verifyTelegramInitData rt d (Some tok) o
        = Invalid MISSING_HASH "hash parameter is required in initData")
  /\ (forall rt d tok o h, payload_present d = true -> truthy tok = true ->
        get (payload_params d) "hash" = Some h -> truthy h = true -> crypto rt = None ->
        verifyTelegramInitData rt d (Some tok) o
        = Invalid CRYPTO_UNAVAILABLE
            "Web Crypto API (crypto.subtle) is not available in this environment").
Proof.
  split; [|split; [|split; [|split]]].
  - intros rt d t o. destruct (verifyTelegramInitData rt d t o) as [|e m]; [exact I|].
    destruct e; simpl; tauto.
  - intros rt d t o Hp. unfold verifyTelegramInitData.
    now rewrite (verify_signature_missing rt d t Hp).
  - intros rt d t o Hp Ht. unfold verifyTelegramInitData.
    rewrite (verify_signature_present rt d t Hp).
    destruct Ht as [-> | ->]; reflexivity.
  - intros rt d tok o Hp Ht Hh. unfold verifyTelegramInitData.
    rewrite (verify_signature_present rt d (Some tok) Hp). cbv iota beta.
    rewrite Ht. cbn [bind ret].
    destruct (get (payload_params d) "hash") as [h|]; [rewrite Hh|]; reflexivity.
  - intros rt d tok o h Hp Ht Hg Hh Hc. unfold verifyTelegramInitData.
    rewrite (verify_signature_present rt d (Some tok) Hp). cbv iota beta.
    rewrite Ht. cbn [bind ret]. rewrite Hg, Hh. cbn [bind ret]. rewrite Hc.
    reflexivity.
Qed.

(** Witness for C9: a blank string, the signed sample with no secret, the
    sample without its hash, and the sample on a runtime without Web
    Crypto. *)
Lemma verify_failures_structured_witness :
  verifyTelegramInitData sample_rt (Init_string "  ") (Some "") sample_options
  = Invalid MISSING_INIT_DATA "initData payload is required"
  /\ verifyTelegramInitData sample_rt (Init_string sample_payload) (Some "") sample_options
     = Invalid MISSING_BOT_TOKEN "Telegram bot token is required"
  /\ verifyTelegramInitData sample_rt (Init_string sample_fields) (Some sample_token)
       sample_options
     = Invalid MISSING_HASH "hash parameter is required in initData"
  /\ verifyTelegramInitData (mkRuntime None 1700000100000 (fun _ => None) decimal_number)
       (Init_params [("hash", "ab")]) (Some sample_token) sample_options
     = Invalid CRYPTO_UNAVAILABLE
         "Web Crypto API (crypto.subtle) is not available in this environment".
Proof.
  destruct verify_failures_structured as (_ & H1 & H2 & H3 & H4).
  split; [|split; [|split]].
  - apply H1. reflexivity.
  - apply H2; [vm_compute; reflexivity | right; reflexivity].
  - apply H3; vm_compute; reflexivity.
  - apply (H4 _ _ _ _ "ab"); reflexivity.
Defined.

(* ------------------------------------------------------------------ *)
Module DetectorMoreFacts.
Import DetectorMore.

Lemma startsWith_app (p q : string) : startsWith p (p ++ q) = true.
Proof. induction p as [|c p IH]; simpl; [reflexivity|]. now rewrite Ascii.eqb_refl. Qed.

Lemma includes_unfold (s p : string) :
  includes s p = startsWith p s || match s with
                                  | EmptyString => false
                                  | String _ s' => includes s' p
                                  end.
Proof. destruct s; reflexivity. Qed.

Lemma includes_app_mid (p m q : string) : includes (p ++ m ++ q) m = true.
Proof.
  induction p as [|c p IH].
  - rewrite includes_unfold. simpl. now rewrite startsWith_app.
  - simpl. rewrite IH. apply orb_true_r.
Qed.

Lemma detectPWA_displayMode (env : Env) :
  detectPWA env
  = window_defined env
    && (negb (String.eqb (getDisplayMode env) "browser") || wco_visible (pwa env)).
Proof.
  unfold detectPWA, getDisplayMode, displayModes.
  destruct (window_defined env); [|reflexivity]. simpl.
  set (mm := matchMedia (pwa env)).
  destruct (mm "(display-mode: fullscreen)"), (mm "(display-mode: standalone)"),
    (mm "(display-mode: minimal-ui)"), (mm "(display-mode: window-controls-overlay)");
    simpl; try reflexivity;
    destruct (nav_standalone (pwa env)) as [[]|]; destruct (wco_visible (pwa env));
    reflexivity.
Qed.

End DetectorMoreFacts.

Import DetectorMore DetectorMoreFacts.

(** X1. [detectEnvironment]: an [options.environment] override is returned
    as is; without it, outside a browser the answer is [unknown]; in a
    browser, a hostname (the [hostname] option, else [location.hostname])
    that contains [dev.], [staging.] or [.local] anywhere is a development
    host, whatever production suffix it also carries. *)
Theorem detectEnvironment_precedence :
  (forall e env opts, detectEnvironment (Some e) env opts = e)
  /\ (forall env opts, window_defined env = false ->
        detectEnvironment None env opts = Env_unknown)
  /\ (forall env opts p m q,
        In m ["dev."; "staging."; ".local"] -> window_defined env = true ->
        (if truthy (opt_hostname opts) then opt_hostname opts else loc_hostname env)
        = p ++ m ++ q ->
        detectEnvironment None env opts = Env_development).
Proof.
  split; [|split].
  - reflexivity.
  - intros env opts W. unfold detectEnvironment. now rewrite W.
  - intros env opts p m q Hm W Hh. unfold detectEnvironment. rewrite W. cbv zeta.
    rewrite Hh.
    destruct Hm as [<-|[<-|[<-|[]]]]; rewrite includes_app_mid;
      repeat (rewrite orb_true_r || rewrite orb_true_l); reflexivity.
Qed.

(** Witness for X1: [myapp.staging.example.com] in a browser. *)
Lemma detectEnvironment_precedence_witness :
  detectEnvironment None
    (sample_env no_native no_tg browser_tab)
    (construct_options "" "myapp.staging.example.com" None None None)
  = Env_development.
Proof.
  destruct detectEnvironment_precedence as (_ & _ & H).
  apply (H _ _ "myapp." "staging." "example.com"); [simpl; auto | reflexivity | reflexivity].
Defined.

(** X2. [detectPWA] and [getDisplayMode] agree although they test the
    display modes in different orders: the detector reports a PWA exactly
    when it runs in a browser and either the display mode is not
    [browser] or the window-controls overlay is visible. *)
Theorem detectPWA_iff_displayMode (env : Env) :
  detectPWA env
  = window_defined env
    && (negb (String.eqb (getDisplayMode env) "browser") || wco_visible (pwa env)).
Proof. exact (detectPWA_displayMode env). Qed.

(** X3. [isPWAInstallable] holds exactly when the page runs in a browser,
    its display mode is [browser] with no visible window-controls overlay
    (it is not already installed), a manifest link and service-worker
    support are present, and the page is served over [https:] or from
    [localhost]. *)
Theorem isPWAInstallable_iff (env : Env) (ie : InstallEvidence) :
  isPWAInstallable env ie = true
  <-> window_defined env = true /\ getDisplayMode env = "browser"
      /\ wco_visible (pwa env) = false
      /\ has_manifest ie = true /\ has_serviceWorker ie = true
      /\ (loc_protocol ie = "https:" \/ loc_hostname env = "localhost").
Proof.
  unfold isPWAInstallable. rewrite detectPWA_displayMode.
  destruct (window_defined env); simpl; [|split; [discriminate| intuition discriminate]].
  destruct (String.eqb (getDisplayMode env) "browser") eqn:B; simpl.
  2:{ split; [discriminate|]. intros (_ & B' & _). apply String.eqb_neq in B. tauto. }
  apply String.eqb_eq in B.
  destruct (wco_visible (pwa env)); simpl; [split; [discriminate|intuition discriminate]|].
  rewrite !andb_true_iff, orb_true_iff, !String.eqb_eq.
  intuition.
Qed.

(** Witness for X3: a plain browser tab over [https:] with a manifest and
    service-worker support. *)
Lemma isPWAInstallable_iff_witness :
  isPWAInstallable (sample_env no_native no_tg browser_tab)
    (mkInstallEvidence true true "https:") = true.
Proof.
  apply (proj2 (isPWAInstallable_iff _ _)).
  split; [reflexivity|]. split; [reflexivity|]. split; [reflexivity|].
  split; [reflexivity|]. split; [reflexivity|]. left; reflexivity.
Defined.

(** X4. [openInTelegram(bot)] returns [true] in every browser context,
    even for an empty bot name: inside Telegram it leaves
    [location.href] alone, otherwise it navigates to the deep link
    [https://t.me/<bot>?start=<encodeURIComponent(location.href)>].
    Outside a browser it returns [false] and navigates nowhere. *)
Theorem openInTelegram_result (env : Env) (opts : Options) (bot : string) :
  openInTelegram env opts bot
  = if window_defined env then
      (true, if detectTelegram env opts then loc_href env
             else "https://t.me/" ++ bot ++ "?start=" ++ encodeURIComponent (loc_href env))
    else (false, loc_href env).
Proof.
  unfold openInTelegram, checkTMAAvailability.
  destruct (window_defined env) eqn:W; [|reflexivity]. simpl.
  destruct (detectTelegram env opts); reflexivity.
Qed.

(** X5. [getBrowserType] answers [Chrome] only for a lower-cased user
    agent that contains [chrome] or [crios] and none of [edg], [firefox],
    [fxios], [opr], [opera], [chromium]; and a user agent that contains
    [chrome] but not [chromium] is never reported as [Samsung Internet],
    [Safari] or [UC Browser] (Samsung Internet's own user agents carry
    [Chrome/...], so they come out as [Chrome]). *)
Theorem getBrowserType_chrome (env : Env) :
  let ua := toLowerCase (nav_userAgent env) in
  (getBrowserType env = "Chrome" ->
     window_defined env = true /\ (includes ua "chrome" || includes ua "crios") = true
     /\ includes ua "edg" = false /\ includes ua "firefox" = false
     /\ includes ua "fxios" = false /\ includes ua "opr" = false
     /\ includes ua "opera" = false /\ includes ua "chromium" = false)
  /\ (window_defined env = true -> includes ua "chrome" = true ->
      includes ua "chromium" = false ->
      In (getBrowserType env) ["Edge"; "Firefox"; "Opera"; "Chrome"]).
Proof.
  intros ua. unfold getBrowserType. fold ua. clearbody ua.
  destruct (window_defined env); [|split; [discriminate|discriminate]].
  cbn [negb].
  split.
  - repeat (match goal with |- context [includes ua ?p] => destruct (includes ua p) end;
            simpl; try discriminate).
    all: intros _; repeat split.
  - intros _ Hc Hm. rewrite Hc, Hm. simpl.
    destruct (includes ua "edg"); simpl; [auto|].
    destruct (includes ua "firefox"); simpl; [auto 6|].
    destruct (includes ua "fxios"); simpl; [auto 6|].
    destruct (includes ua "opr"); simpl; [auto 6|].
    destruct (includes ua "opera"); simpl; auto 6.
Qed.

(** X6. [detectBrowserFamily]: when [window.chrome] is defined the family
    is [chromium] whatever the user agent; a [webkit] answer never comes
    with [chrome], [crios], [edg], [opr] or [samsungbrowser] in the
    lower-cased user agent; and a [gecko] answer requires that
    [window.chrome] is undefined and the user agent does not mention
    [webkit]. *)
Theorem detectBrowserFamily_rules :
  (forall ua, detectBrowserFamily true ua = Family_chromium)
  /\ (forall wc ua, detectBrowserFamily wc ua = Family_webkit ->
        wc = false
        /\ Forall (fun p => includes (toLowerCase ua) p = false)
                  ["chrome"; "crios"; "edg"; "opr"; "samsungbrowser"]
        /\ includes (toLowerCase ua) "webkit" = true)
  /\ (forall wc ua, detectBrowserFamily wc ua = Family_gecko ->
        wc = false /\ includes (toLowerCase ua) "webkit" = false
        /\ includes (toLowerCase ua) "gecko" = true).
Proof.
  split; [|split].
  - reflexivity.
  - intros wc ua. unfold detectBrowserFamily. set (u := toLowerCase ua).
    destruct wc, (includes u "chrome") eqn:E1, (includes u "crios") eqn:E2,
      (includes u "edg") eqn:E3, (includes u "opr") eqn:E4,
      (includes u "samsungbrowser") eqn:E5; simpl;
      try (intros H; discriminate H).
    destruct (includes u "webkit"); simpl;
      [|destruct (includes u "gecko"); intros H; discriminate H].
    intros _. repeat split; repeat constructor; assumption.
  - intros wc ua. unfold detectBrowserFamily. set (u := toLowerCase ua).
    destruct wc, (includes u "chrome"), (includes u "crios"), (includes u "edg"),
      (includes u "opr"), (includes u "samsungbrowser"); simpl;
      try (intros H; discriminate H).
    destruct (includes u "webkit"); simpl; [intros H; discriminate H|].
    destruct (includes u "gecko"); simpl; [|intros H; discriminate H]. auto.
Qed.
Module ClientHintsFacts.
Import ClientHintsModel.

Lemma getHighEntropyHints_mobile (ce : ClientEnv) (h : ClientHintsData) :
  getHighEntropyHints ce = Some h -> exists b, ch_mobile h = Some b.
Proof.
  unfold getHighEntropyHints, getBasicHints.
  destruct (isSupported ce); simpl; [|discriminate].
  destruct (userAgentData ce) as [| | |u]; try discriminate.
  destruct (uad_highEntropy u); [destruct (str_truthy (uad_platform u)); [|discriminate]|];
    intros H; injection H as <-; simpl; eauto.
Qed.

Lemma detectDevice_some (h : ClientHintsData) (b : bool) :
  ch_mobile h = Some b -> exists d, detectDevice h = Some d.
Proof.
  intros Hm. unfold detectDevice. rewrite Hm. cbv zeta.
  repeat match goal with |- context [if ?c then _ else _] => destruct c end; eauto.
Qed.

Lemma find_all_false {A} (f : A -> bool) (l : list A) :
  Forall (fun x => f x = false) l -> find f l = None.
Proof. induction 1 as [|x l Hx _ IH]; simpl; [reflexivity|]. now rewrite Hx. Qed.

End ClientHintsFacts.

Import ClientHintsFacts.

(** X7. [ClientHintsDetector.detect()] answers [null] exactly when the API
    is unsupported (no navigator, no [userAgentData] key, or a value that is
    not of type object), when [navigator.userAgentData] is [null] (which
    passes [isSupported], since [typeof null] is ['object']), or when
    [getHighEntropyValues] fails and the low-entropy [platform] is falsy. *)
Theorem detect_null_iff (ce : ClientHintsModel.ClientEnv) :
  ClientHintsModel.detect ce = None
  <-> ClientHintsModel.isSupported ce = false
      \/ ClientHintsModel.userAgentData ce = ClientHintsModel.UAD_null
      \/ exists u, ClientHintsModel.userAgentData ce = ClientHintsModel.UAD_object u
                   /\ ClientHintsModel.uad_highEntropy u = ClientHintsModel.HE_reject
                   /\ ClientHintsModel.str_truthy (ClientHintsModel.uad_platform u) = false.
Proof.
  unfold ClientHintsModel.detect, ClientHintsModel.getHighEntropyHints,
    ClientHintsModel.getBasicHints.
  destruct (ClientHintsModel.isSupported ce) eqn:S; simpl; [|split; auto].
  destruct (ClientHintsModel.userAgentData ce) as [| | |u] eqn:U; simpl.
  1,2: exfalso; unfold ClientHintsModel.isSupported in S; rewrite U, andb_false_r in S;
       discriminate.
  - split; auto.
  - destruct (ClientHintsModel.uad_highEntropy u) eqn:E;
      [destruct (ClientHintsModel.str_truthy (ClientHintsModel.uad_platform u)) eqn:P|].
    + split; [discriminate|].
      intros [H|[H|(u' & H1 & H2 & H3)]]; try discriminate.
      injection H1 as <-. congruence.
    + split; [|reflexivity]. intros _. right; right. eauto.
    + split; [discriminate|].
      intros [H|[H|(u' & H1 & H2 & H3)]]; try discriminate.
      injection H1 as <-. congruence.
Qed.

(** Witness for X7: [navigator.userAgentData] is [null]. *)
Lemma detect_null_iff_witness :
  ClientHintsModel.detect (ClientHintsModel.mkClientEnv true ClientHintsModel.UAD_null)
  = None.
Proof. apply (proj2 (detect_null_iff _)). right; left; reflexivity. Defined.

(** X8. Whenever [detect()] answers, the answer carries [isMobile] and a
    [device]; so when [detectAsync] merges it (Client Hints enabled and
    supported), the merged [device] is always the hints' device, never the
    user-agent guess of the base result. *)
Theorem detect_answer_device (ce : ClientHintsModel.ClientEnv)
    (r : ClientHintsModel.ClientHintsResult) :
  ClientHintsModel.detect ce = Some r ->
  (exists b, ClientHintsModel.chr_isMobile r = Some b)
  /\ exists d, ClientHintsModel.chr_device r = Some d
     /\ forall base opts, opt_useClientHints opts <> Some false ->
        device (detectAsync_merge base opts (ClientHintsModel.isSupported ce)
                  (ClientHintsModel.detect_outcome ce)) = d.
Proof.
  intros H.
  assert (S : ClientHintsModel.isSupported ce = true).
  { unfold ClientHintsModel.detect in H.
    destruct (ClientHintsModel.isSupported ce); [reflexivity|discriminate]. }
  unfold ClientHintsModel.detect in H. rewrite S in H. cbn [negb] in H.
  destruct (ClientHintsModel.getHighEntropyHints ce) as [h|] eqn:E; [|discriminate].
  injection H as <-. cbn.
  destruct (getHighEntropyHints_mobile ce h E) as [b Hb].
  destruct (detectDevice_some h b Hb) as [d Hd].
  split; [exists b; exact Hb|]. exists d. split; [exact Hd|].
  intros base opts Ho. unfold ClientHintsModel.detect_outcome, ClientHintsModel.detect.
  rewrite S, E. cbn [negb]. unfold detectAsync_merge. cbn [negb orb].
  destruct (opt_useClientHints opts) as [[]|]; [| congruence |]; cbn; rewrite Hd; reflexivity.
Qed.

(** Witness for X8: that phone, merged into a desktop base result. *)
Lemma detect_answer_device_witness :
  device (detectAsync_merge createServerSideInfo (construct_options "" "" None (Some true) None)
            (ClientHintsModel.isSupported android_hints)
            (ClientHintsModel.detect_outcome android_hints)) = Device_mobile.
Proof.
  destruct (detect_answer_device android_hints
              (ClientHintsModel.mkClientHintsResult (Some OS_android) (Some Device_mobile)
                 (Some true) (Some "arm") (Some "Pixel 7") (Some "120.0.6099.43"))
              ltac:(vm_compute; reflexivity)) as (_ & d & Hd & Hm).
  cbn in Hd. injection Hd as <-. apply Hm. discriminate.
Defined.
(** X9. When [getHighEntropyValues] fails but the low-entropy [platform]
    is truthy, [detect()] falls back to the basic hints: the device is
    [mobile] if [userAgentData.mobile] is true and [desktop] otherwise
    (never [tablet]), [isMobile] is that flag, and no architecture, model
    or browser version is reported. *)
Theorem detect_basic_fallback (ce : ClientHintsModel.ClientEnv)
    (u : ClientHintsModel.UADataObject) :
  ClientHintsModel.navigator_defined ce = true ->
  ClientHintsModel.userAgentData ce = ClientHintsModel.UAD_object u ->
  ClientHintsModel.uad_highEntropy u = ClientHintsModel.HE_reject ->
  ClientHintsModel.str_truthy (ClientHintsModel.uad_platform u) = true ->
  let mob := match ClientHintsModel.uad_mobile u with Some true => true | _ => false end in
  exists r, ClientHintsModel.detect ce = Some r
    /\ ClientHintsModel.chr_device r = Some (if mob then Device_mobile else Device_desktop)
    /\ ClientHintsModel.chr_isMobile r = Some mob
    /\ ClientHintsModel.chr_architecture r = None
    /\ ClientHintsModel.chr_model r = None
    /\ ClientHintsModel.chr_browserVersion r = None.
Proof.
  intros N U E P mob.
  assert (S : ClientHintsModel.isSupported ce = true).
  { unfold ClientHintsModel.isSupported. now rewrite N, U. }
  unfold ClientHintsModel.detect, ClientHintsModel.getHighEntropyHints,
    ClientHintsModel.getBasicHints.
  rewrite S, U, E, P. cbn. eexists; split; [reflexivity|].
  cbn. subst mob. destruct (ClientHintsModel.uad_mobile u) as [[]|];
    repeat split; reflexivity.
Qed.

(** Witness for X9: an Android phone whose high-entropy query rejects. *)
Lemma detect_basic_fallback_witness :
  exists r,
    ClientHintsModel.detect
      (ClientHintsModel.mkClientEnv true
         (ClientHintsModel.UAD_object
            (ClientHintsModel.mkUADataObject (Some true) (Some "Android")
               ClientHintsModel.HE_reject))) = Some r
    /\ ClientHintsModel.chr_device r = Some Device_mobile.
Proof.
  destruct (detect_basic_fallback
              (ClientHintsModel.mkClientEnv true
                 (ClientHintsModel.UAD_object
                    (ClientHintsModel.mkUADataObject (Some true) (Some "Android")
                       ClientHintsModel.HE_reject)))
              (ClientHintsModel.mkUADataObject (Some true) (Some "Android")
                 ClientHintsModel.HE_reject)
              eq_refl eq_refl eq_refl eq_refl) as (r & H1 & H2 & _).
  exists r. split; [exact H1|exact H2].
Defined.

(** X10. [detectDevice(hints)]: the [model] is consulted only when
    [mobile] is [true]; and a [formFactor] that lower-cases to [mobile],
    [tablet], [desktop] or [xr] decides the device on its own, whatever
    [mobile] and [model] say. *)
Theorem detectDevice_priority :
  (forall h m, ClientHintsModel.ch_mobile h <> Some true ->
     ClientHintsModel.detectDevice (with_model h m) = ClientHintsModel.detectDevice h)
  /\ (forall h f b m, ClientHintsModel.ch_formFactor h = Some f ->
        In (toLowerCase f) ["mobile"; "tablet"; "desktop"; "xr"] ->
        ClientHintsModel.detectDevice (with_mobile (with_model h m) b)
        = ClientHintsModel.detectDevice h).
Proof.
  split.
  - intros h m Hm. unfold ClientHintsModel.detectDevice, with_model. cbn.
    destruct (ClientHintsModel.ch_mobile h) as [[]|]; [congruence| |]; reflexivity.
  - intros h f b m Hf Hin. unfold ClientHintsModel.detectDevice, with_mobile, with_model.
    cbn. rewrite Hf. cbv zeta.
    assert (Ht : truthy f = true).
    { destruct f; [simpl in Hin; intuition discriminate | reflexivity]. }
    unfold ClientHintsModel.str_truthy. rewrite Ht.
    destruct Hin as [H|[H|[H|[H|[]]]]]; rewrite <- H; reflexivity.
Qed.

(** Witness for X10: a [Tablet] form factor reported with [mobile: false]
    and an iPad model. *)
Lemma detectDevice_priority_witness :
  let h := ClientHintsModel.mkClientHintsData None (Some "Tablet") None (Some "iPad")
             None None (Some false) in
  ClientHintsModel.detectDevice (with_mobile (with_model h None) (Some true))
  = ClientHintsModel.detectDevice h
  /\ ClientHintsModel.detectDevice (with_model h (Some "Pixel 7"))
     = ClientHintsModel.detectDevice h.
Proof.
  intros h. destruct detectDevice_priority as [H1 H2]. split.
  - apply (H2 h "Tablet"); [reflexivity | simpl; auto].
  - apply H1. discriminate.
Defined.

(** X11. [getBrowserVersion(hints)]: a non-empty [fullVersionList] takes
    precedence, so [uaFullVersion] is ignored even when no brand of the
    list qualifies, and a list whose brands all mention [chromium] or
    [not] gives [undefined]; only an absent or empty list falls back to
    [uaFullVersion]. *)
Theorem getBrowserVersion_list_first :
  (forall h l v, ClientHintsModel.ch_fullVersionList h = Some l -> l <> [] ->
     ClientHintsModel.getBrowserVersion (with_uaFullVersion h v)
     = ClientHintsModel.getBrowserVersion h)
  /\ (forall h l, ClientHintsModel.ch_fullVersionList h = Some l -> l <> [] ->
        Forall (fun bv => includes (toLowerCase (fst bv)) "chromium" = true
                          \/ includes (toLowerCase (fst bv)) "not" = true) l ->
        ClientHintsModel.getBrowserVersion h = None)
  /\ (forall h, ClientHintsModel.ch_fullVersionList h = None
                \/ ClientHintsModel.ch_fullVersionList h = Some [] ->
        ClientHintsModel.getBrowserVersion h = ClientHintsModel.ch_uaFullVersion h).
Proof.
  split; [|split].
  - intros h l v Hl Hne. unfold ClientHintsModel.getBrowserVersion, with_uaFullVersion.
    cbn. rewrite Hl. destruct l; [congruence|reflexivity].
  - intros h l Hl Hne Hall. unfold ClientHintsModel.getBrowserVersion. rewrite Hl.
    destruct l as [|x l]; [congruence|].
    rewrite find_all_false; [reflexivity|].
    revert Hall. apply Forall_impl. intros [brand version] [H|H]; cbn in H |- *;
      rewrite H; [reflexivity|apply andb_false_r].
  - intros h [H|H]; unfold ClientHintsModel.getBrowserVersion; rewrite H; reflexivity.
Qed.

(** Witness for X11: a list with only [Chromium] and a [Not_A Brand]
    entry, next to a [uaFullVersion]. *)
Lemma getBrowserVersion_list_first_witness :
  ClientHintsModel.getBrowserVersion
    (ClientHintsModel.mkClientHintsData None None
       (Some [("Chromium", "120.0.6099.43"); ("Not_A Brand", "8.0.0.0")])
       None None (Some "120.0.6099.43") None) = None.
Proof.
  destruct getBrowserVersion_list_first as (_ & H & _).
  apply (H _ [("Chromium", "120.0.6099.43"); ("Not_A Brand", "8.0.0.0")]);
    [reflexivity | discriminate |].
  apply Forall_cons; [left; reflexivity|].
  apply Forall_cons; [right; reflexivity|]. apply Forall_nil.
Defined.
Module TmaSdkFacts.
Import TmaSdk.

Lemma getTmaJsSdk_none (wd : bool) (w : TmaWindow) :
  val___tma__sdk__ w = None -> val_tmaSDK w = None ->
  retrieveLaunchParams w <> RLP_return None ->
  (forall lp, retrieveLaunchParams w <> RLP_return (Some lp)) ->
  getTmaJsSdk wd w = None.
Proof.
  intros H1 H2 H3 H4. unfold getTmaJsSdk. destruct wd; [|reflexivity]. cbn [negb].
  rewrite H1, H2. destruct (retrieveLaunchParams w) as [| |[lp|]]; try reflexivity.
  - exfalso. exact (H4 lp eq_refl).
  - exfalso. exact (H3 eq_refl).
Qed.

Lemma getTmaJsSdk_available (wd : bool) (w : TmaWindow) (sdk : SdkInstance) :
  window_wf w -> getTmaJsSdk wd w = Some sdk -> isTmaJsSdkAvailable wd w = true.
Proof.
  intros [K1 K2]. unfold getTmaJsSdk, isTmaJsSdkAvailable.
  destruct wd; [|discriminate]. cbn [negb].
  destruct (val___tma__sdk__ w) eqn:V1.
  { rewrite K1 by congruence. reflexivity. }
  destruct (val_tmaSDK w) eqn:V2.
  { rewrite K2 by congruence. rewrite orb_true_r. reflexivity. }
  destruct (retrieveLaunchParams w); try discriminate.
  intros _. rewrite !orb_true_r. reflexivity.
Qed.

Lemma isTelegramViaTmaJs_no_sdk (wd : bool) (w : TmaWindow) :
  getTmaJsSdk wd w = None -> isTelegramViaTmaJs wd w = false.
Proof.
  intros H. unfold isTelegramViaTmaJs. rewrite H.
  destruct (negb (isTmaJsSdkAvailable wd w)); reflexivity.
Qed.

Lemma getTelegramPlatformFromTmaJs_no_sdk (wd : bool) (w : TmaWindow) :
  getTmaJsSdk wd w = None -> getTelegramPlatformFromTmaJs wd w = None.
Proof. intros H. unfold getTelegramPlatformFromTmaJs. now rewrite H. Qed.

Lemma native_verdict_with_tg (env : Env) (te : TelegramEvidence) :
  native_verdict (with_tg env te) = native_verdict env.
Proof. reflexivity. Qed.

End TmaSdkFacts.

Import TmaSdk TmaSdkFacts.

(** X12. [@tma.js] globals without an SDK instance (an [initMiniApp]
    function, keys holding falsy values, or a [retrieveLaunchParams] that
    throws) may make [isTmaJsSdkAvailable()] true, but they change neither
    the detector's Telegram verdict nor its [getTelegramInfo()]: both
    come out as with no [@tma.js] globals at all. *)
Theorem tma_globals_without_instance (env : Env) (opts : Options) (w : TmaWindow)
    (wa : option WebApp) :
  val___tma__sdk__ w = None -> val_tmaSDK w = None ->
  (retrieveLaunchParams w = RLP_absent \/ retrieveLaunchParams w = RLP_throw) ->
  let env1 := with_tg env (telegram_evidence (window_defined env) w wa) in
  let env0 := with_tg env (mkTelegramEvidence false false false "" wa) in
  getTelegramInfo env1 opts = getTelegramInfo env0 opts
  /\ detectTelegram env1 opts = detectTelegram env0 opts.
Proof.
  intros H1 H2 H3 env1 env0.
  assert (N : getTmaJsSdk (window_defined env) w = None).
  { apply getTmaJsSdk_none; [exact H1|exact H2| |]; intros *; destruct H3 as [-> | ->];
      discriminate. }
  subst env1 env0. unfold getTelegramInfo, detectTelegram, telegram_evidence, with_tg.
  cbn [tg tma_via tma_sdk_available tma_sdk_instance tma_platform win_webApp
       window_defined].
  rewrite N, (isTelegramViaTmaJs_no_sdk _ _ N), andb_false_r, andb_false_l.
  split; reflexivity.
Qed.

(** Witness for X12: a window with only [initMiniApp], whose
    availability check passes. *)
Lemma tma_globals_without_instance_witness :
  isTmaJsSdkAvailable true window_initMiniApp_only = true
  /\ getTelegramInfo (with_tg (sample_env no_native no_tg browser_tab)
                        (telegram_evidence true window_initMiniApp_only (Some sample_webapp)))
       (construct_options "" "" None None None)
     = Some "android".
Proof.
  split; [reflexivity|].
  destruct (tma_globals_without_instance (sample_env no_native no_tg browser_tab)
              (construct_options "" "" None None None) window_initMiniApp_only
              (Some sample_webapp) eq_refl eq_refl (or_introl eq_refl)) as [H _].
  exact H.
Defined.

(** X13. A [retrieveLaunchParams] that returns [null] (with no SDK global)
    still yields an SDK instance, one with every field undefined: the
    [@tma.js] route does not detect Telegram, yet [getTelegramInfo()] takes
    that route and reports platform [unknown], so the platform a native
    WebApp reports is ignored by [detect()]. *)
Theorem tma_null_launch_params (env : Env) (opts : Options) (w : TmaWindow)
    (wa : option WebApp) :
  window_defined env = true ->
  val___tma__sdk__ w = None -> val_tmaSDK w = None ->
  retrieveLaunchParams w = RLP_return None ->
  let env1 := with_tg env (telegram_evidence true w wa) in
  isTelegramViaTmaJs true w = false
  /\ getTelegramInfo env1 opts = Some "unknown"
  /\ telegram (performDetection env1 opts) = Some "unknown"
  /\ detectTelegram env1 opts
     = validateTelegramWebApp (match opt_telegramWebApp opts with
                               | Some x => Some x
                               | None => wa
                               end).
Proof.
  intros W H1 H2 H3 env1.
  assert (S : getTmaJsSdk true w = Some (mkSdkInstance None None None None None)).
  { unfold getTmaJsSdk. cbn [negb]. now rewrite H1, H2, H3. }
  assert (V : isTelegramViaTmaJs true w = false).
  { unfold isTelegramViaTmaJs. rewrite S. cbn -[isTmaJsSdkAvailable].
    destruct (negb (isTmaJsSdkAvailable true w)); reflexivity. }
  assert (A : isTmaJsSdkAvailable true w = true).
  { unfold isTmaJsSdkAvailable. rewrite H3. cbn. now rewrite !orb_true_r. }
  assert (P : getTelegramPlatformFromTmaJs true w = None).
  { unfold getTelegramPlatformFromTmaJs. now rewrite S. }
  assert (G : getTelegramInfo env1 opts = Some "unknown").
  { subst env1. unfold getTelegramInfo, telegram_evidence, with_tg.
    cbn [tg window_defined tma_sdk_available tma_sdk_instance tma_platform].
    rewrite A, W, S, P. reflexivity. }
  split; [exact V|]. split; [exact G|]. split.
  - unfold performDetection. replace (window_defined env1) with true by exact (eq_sym W).
    cbn [negb]. destruct (telegram_override _ _ _ _) as [[fd fm] fo]. exact G.
  - subst env1. unfold detectTelegram, telegram_evidence, with_tg.
    cbn [tg window_defined tma_via win_webApp].
    rewrite W, V. cbn [negb].
    destruct (opt_telegramWebApp opts); [reflexivity|]. destruct wa; reflexivity.
Qed.

(** Witness for X13: such a window next to a valid native WebApp on
    Android. *)
Lemma tma_null_launch_params_witness :
  telegram (performDetection
              (with_tg (sample_env no_native no_tg browser_tab)
                 (telegram_evidence true window_null_launch_params (Some sample_webapp)))
              (construct_options "" "" None None None))
  = Some "unknown".
Proof.
  exact (proj1 (proj2 (proj2 (tma_null_launch_params (sample_env no_native no_tg browser_tab)
           (construct_options "" "" None None None) window_null_launch_params
           (Some sample_webapp) eq_refl eq_refl eq_refl eq_refl)))).
Defined.

(** X14. When the [@tma.js] SDK instance (a global that is a key of
    [window]) reports a [miniApp.platform] [p] other than [unknown],
    [detect()] on a non-native page classifies it as a Telegram Mini App
    with [telegram.platform = p]; for [ios], [android] or [android_x] the
    result is mobile (device [mobile] or [tablet]). *)
Theorem tma_sdk_platform_drives_detection (env : Env) (opts : Options) (w : TmaWindow)
    (wa : option WebApp) (sdk : SdkInstance) (m : MiniApp) (p : string) :
  window_defined env = true -> window_wf w ->
  getTmaJsSdk true w = Some sdk -> sdk_miniApp sdk = Some m -> ma_platform m = Some p ->
  truthy p = true -> p <> "unknown" -> native_verdict env = false ->
  let r := performDetection (with_tg env (telegram_evidence true w wa)) opts in
  type r = Type_tma /\ isTelegram r = true /\ telegram r = Some p
  /\ (In p ["ios"; "android"; "android_x"] -> isMobile r = true /\ device r <> Device_desktop).
Proof.
  intros W Wf S M P T U N r.
  assert (A := getTmaJsSdk_available true w sdk Wf S).
  assert (V : isTelegramViaTmaJs true w = true).
  { unfold isTelegramViaTmaJs. rewrite A, S. cbn [negb]. cbv zeta.
    rewrite M, P, T. apply String.eqb_neq in U. rewrite U.
    destruct (match sdk_initData sdk with Some _ => _ | None => false end); reflexivity. }
  assert (Pl : getTelegramPlatformFromTmaJs true w = Some p).
  { unfold getTelegramPlatformFromTmaJs. now rewrite S, M, P, T. }
  set (env1 := with_tg env (telegram_evidence true w wa)) in r.
  assert (W1 : window_defined env1 = true) by exact W.
  assert (D : detectTelegram env1 opts = true).
  { unfold detectTelegram. rewrite W1. subst env1. unfold telegram_evidence, with_tg.
    cbn [tg tma_via negb]. now rewrite V. }
  assert (G : getTelegramInfo env1 opts = Some p).
  { unfold getTelegramInfo. subst env1. unfold telegram_evidence, with_tg.
    cbn [tg window_defined tma_sdk_available tma_sdk_instance tma_platform].
    rewrite A, W, S, Pl. unfold or_unknown. now rewrite T. }
  assert (N1 : native_verdict env1 = false) by (subst env1; rewrite native_verdict_with_tg; exact N).
  pose proof (performDetection_window env1 opts W1) as (Ht & _ & Hi & _).
  fold r in Ht, Hi. unfold native_verdict in N1.
  split; [rewrite Ht; unfold native_verdict; now rewrite N1, D|].
  split; [rewrite Hi; exact D|].
  subst r. unfold performDetection. rewrite W1. cbn [negb]. rewrite D, G.
  split.
  - destruct (telegram_override _ _ _ _) as [[fd fm] fo]. reflexivity.
  - intros Hin.
    destruct Hin as [<-|[<-|[<-|[]]]];
      unfold telegram_override; cbn;
      destruct (detectDevice _ _ _); cbn; split; (reflexivity || discriminate).
Qed.

(** Witness for X14: an SDK global reporting an iOS client, on the sample
    browser page. *)
Lemma tma_sdk_platform_drives_detection_witness :
  let r := performDetection
             (with_tg (sample_env no_native no_tg browser_tab)
                (telegram_evidence true window_sdk_ios None))
             (construct_options "" "" None None None) in
  type r = Type_tma /\ telegram r = Some "ios" /\ isMobile r = true.
Proof.
  destruct (tma_sdk_platform_drives_detection (sample_env no_native no_tg browser_tab)
              (construct_options "" "" None None None) window_sdk_ios None sdk_ios
              (mkMiniApp (Some "ios") (Some true) None None) "ios"
              eq_refl (conj (fun _ => eq_refl) (fun H => False_ind _ (H eq_refl)))
              eq_refl eq_refl eq_refl eq_refl ltac:(discriminate) eq_refl)
    as (H1 & _ & H3 & H4).
  split; [exact H1|]. split; [exact H3|]. apply (H4 (or_introl eq_refl)).
Defined.

(** X15. [initializeTmaJs()] reports success only in a browser where
    [isTmaJsSdkAvailable()] holds: it succeeds by calling [initMiniApp] or
    the SDK's [miniApp.ready], and a call that throws makes it return
    [false]. *)
Theorem initializeTmaJs_available (wd : bool) (w : TmaWindow) :
  window_wf w -> initializeTmaJs wd w = true ->
  wd = true /\ isTmaJsSdkAvailable wd w = true
  /\ (initMiniApp w = Some true
      \/ initMiniApp w = None
         /\ exists sdk m, getTmaJsSdk wd w = Some sdk /\ sdk_miniApp sdk = Some m
                          /\ ma_ready m = Some true).
Proof.
  intros Wf. unfold initializeTmaJs.
  destruct wd; [|discriminate]. cbn [negb].
  destruct (initMiniApp w) as [b|] eqn:I.
  - intros ->. split; [reflexivity|]. split; [|now left].
    unfold isTmaJsSdkAvailable. rewrite I. cbn. now rewrite !orb_true_r.
  - destruct (getTmaJsSdk true w) as [sdk|] eqn:S; [|discriminate].
    destruct (sdk_miniApp sdk) as [m|] eqn:M; [|discriminate].
    destruct (ma_ready m) as [b|] eqn:R; [|discriminate]. intros ->.
    split; [reflexivity|]. split; [exact (getTmaJsSdk_available true w sdk Wf S)|].
    right. split; [reflexivity|]. exists sdk, m. auto.
Qed.

(** Witness for X15: the window whose SDK global reports an iOS client. *)
Lemma initializeTmaJs_available_witness :
  isTmaJsSdkAvailable true window_sdk_ios = true.
Proof.
  exact (proj1 (proj2 (initializeTmaJs_available true window_sdk_ios
           (conj (fun _ => eq_refl) (fun H => False_ind _ (H eq_refl))) eq_refl))).
Defined.
Module InitDataMoreFacts.

Lemma xor_accumulate_zero (acc : Z) (a b : string) :
  String.length a = String.length b -> xor_accumulate acc a b = 0%Z -> acc = 0%Z /\ a = b.
Proof.
  revert acc b. induction a as [|x a IH]; intros acc b L H; destruct b as [|y b];
    cbn in L, H; try discriminate.
  - split; [exact H|reflexivity].
  - injection L as L. destruct (IH _ _ L H) as [H1 ->].
    apply Z.lor_eq_0_iff in H1 as [H1 H3]. apply Z.lxor_eq_0_iff, Nat2Z.inj in H3.
    split; [exact H1|]. f_equal.
    rewrite <- (ascii_nat_embedding x), <- (ascii_nat_embedding y). now rewrite H3.
Qed.

Lemma timingSafeEqual_eq (a b : string) : timingSafeEqual a b = true <-> a = b.
Proof.
  split; [|intros <-; apply timingSafeEqual_refl].
  unfold timingSafeEqual.
  destruct (String.length a =? String.length b)%nat eqn:L; [|discriminate].
  cbn [negb]. intros H. apply Nat.eqb_eq in L. apply Z.eqb_eq in H.
  exact (proj2 (xor_accumulate_zero 0 a b L H)).
Qed.

Lemma hex_value_lower (n : nat) : (n < 16)%nat -> hex_value (hex_lower n) = Some n.
Proof. intros H. do 16 (destruct n as [|n]; [reflexivity|]). lia. Qed.

Lemma bytesToHex_cons (b : Z) (bs : list Z) :
  bytesToHex (b :: bs)
  = String (hex_lower (Z.to_nat b / 16)) (String (hex_lower (Z.to_nat b mod 16)) (bytesToHex bs)).
Proof. reflexivity. Qed.

Lemma urlencoded_char_ok_all (c : ascii) : urlencoded_char_ok c = true.
Proof. destruct c as [[] [] [] [] [] [] [] []]; vm_compute; reflexivity. Qed.

Lemma replace_plus_app (s t : string) :
  replace_plus (s ++ t) = replace_plus s ++ replace_plus t.
Proof. induction s as [|c s IH]; simpl; [reflexivity|]. now rewrite IH. Qed.

Lemma urlencoded_byte_decode (c : ascii) (t : string) :
  percent_decode (replace_plus (urlencoded_byte c) ++ t) = String c (percent_decode t).
Proof.
  pose proof (urlencoded_char_ok_all c) as H. unfold urlencoded_char_ok in H.
  apply andb_prop in H as [_ H].
  destruct (replace_plus (urlencoded_byte c)) as [|d [|h [|l [|x r]]]]; try discriminate.
  - apply andb_prop in H as [H1 H2]. apply Ascii.eqb_eq in H1. subst d.
    apply negb_true_iff in H2. simpl. now rewrite H2.
  - apply andb_prop in H as [H1 H2]. apply Ascii.eqb_eq in H1. subst d.
    simpl. destruct (hex_value h), (hex_value l); try discriminate.
    apply Ascii.eqb_eq in H2. rewrite <- H2. f_equal.
Qed.

Lemma decode_serialize (s : string) :
  percent_decode (replace_plus (urlencoded_serialize s)) = s.
Proof.
  induction s as [|c s IH]; [reflexivity|].
  simpl. now rewrite replace_plus_app, urlencoded_byte_decode, IH.
Qed.

Lemma serialize_avoids (s : string) :
  string_forall no_amp_eq (urlencoded_serialize s) = true.
Proof.
  induction s as [|c s IH]; [reflexivity|].
  simpl. rewrite string_forall_app, IH, andb_true_r.
  pose proof (urlencoded_char_ok_all c) as H. unfold urlencoded_char_ok in H.
  now apply andb_prop in H as [H _].
Qed.

Lemma split_first_app (sep : ascii) (x y : string) :
  string_forall (fun c => negb (Ascii.eqb c sep)) x = true ->
  split_first sep (x ++ String sep y) = Some (x, y).
Proof.
  induction x as [|c x IH]; simpl.
  - now rewrite Ascii.eqb_refl.
  - intros H. apply andb_prop in H as [H1 H2]. apply negb_true_iff in H1.
    now rewrite H1, (IH H2).
Qed.

Lemma split_on_app (sep : ascii) (x y : string) :
  string_forall (fun c => negb (Ascii.eqb c sep)) x = true ->
  split_on sep (x ++ String sep y) = x :: split_on sep y.
Proof.
  induction x as [|c x IH]; simpl.
  - now rewrite Ascii.eqb_refl.
  - intros H. apply andb_prop in H as [H1 H2]. apply negb_true_iff in H1.
    now rewrite H1, (IH H2).
Qed.

Lemma split_on_join (sep : ascii) (xs : list string) :
  xs <> [] ->
  Forall (fun x => string_forall (fun c => negb (Ascii.eqb c sep)) x = true) xs ->
  split_on sep (join (String sep EmptyString) xs) = xs.
Proof.
  induction xs as [|x [|y r] IH]; intros Hne Hall; [congruence| |].
  - inversion Hall; subst. simpl. now apply split_on_none.
  - inversion Hall as [|? ? Hx Hr]; subst.
    change (join (String sep EmptyString) (x :: y :: r))
      with (x ++ String sep EmptyString ++ join (String sep EmptyString) (y :: r)).
    simpl (String sep EmptyString ++ _). rewrite split_on_app by exact Hx.
    f_equal. apply IH; [discriminate|exact Hr].
Qed.

Lemma filter_all {A} (f : A -> bool) (l : list A) :
  Forall (fun x => f x = true) l -> filter f l = l.
Proof. induction 1 as [|x l Hx _ IH]; simpl; [reflexivity|]. now rewrite Hx, IH. Qed.

Lemma serialize_entry_avoids (sep : ascii) (n v : string) :
  In sep ["&"]%char ->
  string_forall (fun c => negb (Ascii.eqb c sep))
    (urlencoded_serialize n ++ "=" ++ urlencoded_serialize v) = true.
Proof.
  intros [<-|[]]. rewrite string_forall_app. simpl (string_forall _ ("=" ++ _)).
  assert (G : forall s, string_forall no_amp_eq s = true ->
                        string_forall (fun c => negb (Ascii.eqb c "&")) s = true).
  { intros s. apply string_forall_impl. intros c Hc. unfold no_amp_eq in Hc.
    now apply andb_prop in Hc as [Hc _]. }
  now rewrite !G by apply serialize_avoids.
Qed.

Lemma parse_serialized_entry (n v : string) :
  parse_sequence (urlencoded_serialize n ++ "=" ++ urlencoded_serialize v) = (n, v).
Proof.
  unfold parse_sequence.
  change ("=" ++ urlencoded_serialize v) with (String "=" (urlencoded_serialize v)).
  rewrite split_first_app.
  - cbv iota beta. now rewrite !decode_serialize.
  - apply (string_forall_impl no_amp_eq); [|apply serialize_avoids].
    intros c Hc. unfold no_amp_eq in Hc. now apply andb_prop in Hc as [_ Hc].
Qed.

Lemma urlencoded_roundtrip (e : list (string * string)) :
  urlencoded_parse (urlencoded_toString e) = e.
Proof.
  destruct e as [|p e]; [reflexivity|].
  unfold urlencoded_parse, urlencoded_toString.
  rewrite split_on_join.
  2:{ discriminate. }
  2:{ apply Forall_forall. intros x Hx. apply in_map_iff in Hx as ([n v] & <- & _).
      apply serialize_entry_avoids. simpl; auto. }
  rewrite filter_all.
  2:{ apply Forall_forall. intros x Hx. apply in_map_iff in Hx as ([n v] & <- & _).
      destruct (urlencoded_serialize n); reflexivity. }
  rewrite map_map. rewrite <- (map_id (p :: e)) at 2. apply map_ext.
  intros [n v]. apply parse_serialized_entry.
Qed.

Lemma get_app (l1 l2 : list (string * string)) (k : string) :
  get (l1 ++ l2) k = match get l1 k with Some v => Some v | None => get l2 k end.
Proof.
  induction l1 as [|[k' v'] l1 IH]; simpl; [reflexivity|].
  destruct (String.eqb k' k); [reflexivity|exact IH].
Qed.

Lemma get_assoc_set (m : list (string * string)) (k v k' : string) :
  get (assoc_set m k v) k' = if String.eqb k k' then Some v else get m k'.
Proof.
  induction m as [|[a b] m IH]; simpl; [reflexivity|].
  destruct (String.eqb a k) eqn:A; simpl.
  - apply String.eqb_eq in A. subst a. destruct (String.eqb k k'); reflexivity.
  - destruct (String.eqb a k') eqn:B; [|exact IH].
    apply String.eqb_eq in B. subst a.
    rewrite String.eqb_sym, A. reflexivity.
Qed.

Lemma keys_assoc_set (m : list (string * string)) (k v : string) :
  map fst (assoc_set m k v)
  = if existsb (fun x => String.eqb x k) (map fst m) then map fst m else app (map fst m) [k].
Proof.
  induction m as [|[a b] m IH]; simpl; [reflexivity|].
  destruct (String.eqb a k) eqn:A; simpl.
  - apply String.eqb_eq in A. now subst.
  - rewrite IH. destruct (existsb _ _); reflexivity.
Qed.

Lemma nodup_assoc_set (m : list (string * string)) (k v : string) :
  NoDup (map fst m) -> NoDup (map fst (assoc_set m k v)).
Proof.
  intros H. rewrite keys_assoc_set.
  destruct (existsb (fun x => String.eqb x k) (map fst m)) eqn:E; [exact H|].
  apply NoDup_app; [exact H|constructor; [intros []|constructor]|].
  intros x Hx [Ek|[]]. subst x.
  assert (T : existsb (fun x => String.eqb x k) (map fst m) = true).
  { apply existsb_exists. exists k. split; [exact Hx|apply String.eqb_refl]. }
  congruence.
Qed.

Lemma fold_assoc_set (params m : list (string * string)) :
  NoDup (map fst m) ->
  NoDup (map fst (fold_left (fun m '(k, v) => assoc_set m k v) params m))
  /\ forall k, get (fold_left (fun m '(k, v) => assoc_set m k v) params m) k
               = match get (rev params) k with Some v => Some v | None => get m k end.
Proof.
  revert m. induction params as [|[k v] params IH]; intros m Hm; simpl.
  - split; [exact Hm|reflexivity].
  - destruct (IH (assoc_set m k v) (nodup_assoc_set m k v Hm)) as [H1 H2].
    split; [exact H1|]. intros k'. rewrite H2, get_app. simpl.
    rewrite get_assoc_set.
    destruct (get (rev params) k'); [reflexivity|].
    destruct (String.eqb k k'); reflexivity.
Qed.

Lemma verify_signature_ok (rt : Runtime) (d : InitDataInput) (t : option string)
    (params : list (string * string)) (h dcs rs : string) :
  verify_signature rt d t = inr (params, h, dcs, rs) ->
  exists tok hm,
    t = Some tok /\ truthy tok = true /\ crypto rt = Some hm
    /\ params = payload_params d /\ get params "hash" = Some h /\ truthy h = true
    /\ dcs = buildDataCheckString params /\ rs = raw_string d
    /\ bytesToHex (hm (hm (encode "WebAppData") (encode tok)) (encode dcs)) = toLowerCase h.
Proof.
  unfold verify_signature. intros H.
  destruct (match d with
            | Init_absent => fail MISSING_INIT_DATA "initData payload is required"
            | Init_string s0 =>
                if String.eqb (trim s0) "" then fail MISSING_INIT_DATA
                  "initData payload is required" else ret tt
            | Init_params _ => ret tt
            end) as [e|[]]; cbn [bind] in H; [discriminate|].
  destruct t as [tok|]; [|discriminate]. destruct (truthy tok) eqn:T; [|discriminate].
  cbn [bind ret] in H.
  destruct (get (payload_params d) "hash") as [h'|] eqn:G; [|discriminate].
  destruct (truthy h') eqn:Th; [|discriminate]. cbn [bind ret] in H.
  destruct (crypto rt) as [hm|] eqn:C; [|discriminate].
  destruct (negb (timingSafeEqual _ _)) eqn:S; [discriminate|].
  injection H as <- <- <- <-.
  apply negb_false_iff, timingSafeEqual_eq in S.
  exists tok, hm. repeat split; auto.
Qed.

Lemma verify_freshness_ok (rt : Runtime) (o : ValidationOptions)
    (params : list (string * string)) (a : Z) :
  verify_freshness rt o params = inr a ->
  (a - current_time rt o <= 60)%Z
  /\ ((0 < max_age o)%Z -> (current_time rt o - a <= max_age o)%Z).
Proof.
  unfold verify_freshness.
  destruct (match get params "auth_date" with
            | Some r => if truthy r then number_of rt r else None
            | None => None end) as [a'|]; [|discriminate].
  destruct ((0 <? max_age o)%Z && (max_age o <? current_time rt o - a')%Z) eqn:E;
    [discriminate|].
  destruct (60 <? a' - current_time rt o)%Z eqn:F; [discriminate|].
  intros H. injection H as <-. apply Z.ltb_ge in F. split; [lia|].
  intros P. rewrite (proj2 (Z.ltb_lt _ _) P) in E. cbn [andb] in E.
  apply Z.ltb_ge in E. lia.
Qed.

Lemma verify_fields_ok_inv (rt : Runtime) (o : ValidationOptions)
    (params : list (string * string)) (a : Z) (h dcs rs : string) (data : TelegramInitData) :
  verify_fields rt o params a h dcs rs = Ok data ->
  auth_date data = a /\ hash data = h /\ dataCheckString data = dcs /\ raw data = rs
  /\ rawParams data = fold_left (fun m '(k, v) => assoc_set m k v) params []
  /\ (requireUser o = true -> user data <> None)
  /\ (forall j, user data = Some j -> json_truthy j = true).
Proof.
  unfold verify_fields.
  destruct (parseJsonField rt (get params "user") "user") as [|ju|mu] eqn:U;
    [| |discriminate];
  (destruct (parseJsonField rt (get params "receiver") "receiver"); [| |discriminate]);
  (destruct (parseJsonField rt (get params "chat") "chat"); [| |discriminate]);
  cbn [json_or_undefined];
  (destruct (requireUser o); cbn [andb negb];
   [try (intros H; discriminate H)|]);
  try (destruct (json_truthy ju) eqn:J; cbn [negb]; try (intros H; discriminate H));
  intros H; injection H as <-; cbn;
  repeat split; try congruence; intros j Hj; try discriminate;
  injection Hj as <-; exact J.
Qed.

End InitDataMoreFacts.

Import InitDataMoreFacts.

(** X16. [timingSafeEqual(a, b)] is string equality: it is true exactly
    when the two strings are equal (equal lengths and no differing code
    unit), although it never stops early. *)
Theorem timingSafeEqual_iff (a b : string) : timingSafeEqual a b = true <-> a = b.
Proof. exact (timingSafeEqual_eq a b). Qed.

(** X17. [bytesToHex] writes exactly two characters per byte and is
    injective on byte arrays: two byte sequences with the same hex
    rendering are equal. *)
Theorem bytesToHex_injective :
  (forall bs, String.length (bytesToHex bs) = (2 * length bs)%nat)
  /\ (forall bs bs', Forall (fun b => (0 <= b < 256)%Z) bs ->
        Forall (fun b => (0 <= b < 256)%Z) bs' ->
        bytesToHex bs = bytesToHex bs' -> bs = bs').
Proof.
  split.
  - induction bs as [|b bs IH]; [reflexivity|].
    rewrite bytesToHex_cons. cbn [String.length length]. rewrite IH. lia.
  - induction bs as [|b bs IH]; intros [|b' bs'] Hb Hb' H; try reflexivity;
      rewrite ?bytesToHex_cons in H; try discriminate.
    inversion Hb as [|? ? Hb1 Hb2]; inversion Hb' as [|? ? Hb1' Hb2']; subst.
    assert (Ln : (Z.to_nat b < 256)%nat) by lia.
    assert (Ln' : (Z.to_nat b' < 256)%nat) by lia.
    assert (Dq : forall x, (x < 256)%nat -> (x / 16 < 16)%nat)
      by (intros x Hx; apply Nat.Div0.div_lt_upper_bound; lia).
    assert (Dr : forall x, (x mod 16 < 16)%nat) by (intros x; apply Nat.mod_upper_bound; lia).
    pose proof (hex_value_lower _ (Dq _ Ln)) as V1.
    pose proof (hex_value_lower _ (Dq _ Ln')) as V1'.
    pose proof (hex_value_lower _ (Dr (Z.to_nat b))) as V2.
    pose proof (hex_value_lower _ (Dr (Z.to_nat b'))) as V2'.
    remember (Z.to_nat b / 16) as q eqn:Eq. remember (Z.to_nat b' / 16) as q' eqn:Eq'.
    remember (Z.to_nat b mod 16) as r eqn:Er. remember (Z.to_nat b' mod 16) as r' eqn:Er'.
    injection H as H1 H2 H3.
    rewrite (IH bs' Hb2 Hb2' H3). f_equal.
    assert (Q : q = q') by congruence.
    assert (R : r = r') by congruence.
    assert (E : Z.to_nat b = Z.to_nat b').
    { rewrite (Nat.div_mod_eq (Z.to_nat b) 16), (Nat.div_mod_eq (Z.to_nat b') 16).
      rewrite <- Eq, <- Eq', <- Er, <- Er', Q, R. reflexivity. }
    lia.
Qed.

(** X18. [URLSearchParams] serialisation round-trips: parsing the
    [toString()] of any list of entries gives back the same entries, in
    order, duplicates included; so for a [URLSearchParams] payload the
    verifier reads (and signs) exactly the entries it was given. *)
Theorem urlsearchparams_roundtrip (e : list (string * string)) :
  urlencoded_parse (urlencoded_toString e) = e /\ payload_params (Init_params e) = e.
Proof. split; [apply urlencoded_roundtrip | unfold payload_params; apply urlencoded_roundtrip]. Qed.

(** X19. With [options.currentTimestamp] given, [verifyTelegramInitData]
    never reads the clock: its result is the same for every value of
    [Date.now()]. *)
Theorem verify_ignores_clock (rt : Runtime) (d : InitDataInput) (t : option string)
    (o : ValidationOptions) (n : Z) :
  currentTimestamp o <> None ->
  verifyTelegramInitData (mkRuntime (crypto rt) n (json_parse rt) (number_of rt)) d t o
  = verifyTelegramInitData rt d t o.
Proof.
  intros H. destruct o as [[ts|] ma ru]; [|exfalso; apply H; reflexivity].
  destruct rt. reflexivity.
Qed.

(** Witness for X19: the sample payload checked at a fixed
    [currentTimestamp], on two clocks. *)
Lemma verify_ignores_clock_witness :
  verifyTelegramInitData (mkRuntime (crypto sample_rt) 0 (json_parse sample_rt)
                            (number_of sample_rt))
    (Init_string sample_payload) (Some sample_token)
    (mkValidationOptions (Some 1700000100%Z) None false)
  = verifyTelegramInitData sample_rt (Init_string sample_payload) (Some sample_token)
      (mkValidationOptions (Some 1700000100%Z) None false).
Proof. apply verify_ignores_clock. discriminate. Defined.

(** X20. Every accepted result is signed and fresh: [ok: true] requires a
    non-empty secret and Web Crypto; [data.hash] is the first [hash] entry,
    and its lower-cased form is the hex HMAC-SHA256, keyed with
    HMAC("WebAppData", secret), of [data.dataCheckString], which is the
    canonical check string of the payload; [data.raw] is the (trimmed)
    raw string; [auth_date] is at most 60 s ahead of the current time and,
    with a positive [maxAgeSeconds], at most that old; with [requireUser]
    a user is present, and a reported user is a truthy JSON value. *)
Theorem verify_accept_sound (rt : Runtime) (d : InitDataInput) (t : option string)
    (o : ValidationOptions) (data : TelegramInitData) :
  verifyTelegramInitData rt d t o = Ok data ->
  exists tok hm,
    t = Some tok /\ truthy tok = true /\ crypto rt = Some hm
    /\ get (payload_params d) "hash" = Some (hash data)
    /\ dataCheckString data = buildDataCheckString (payload_params d)
    /\ raw data = raw_string d
    /\ toLowerCase (hash data)
       = bytesToHex (hm (hm (encode "WebAppData") (encode tok)) (encode (dataCheckString data)))
    /\ (auth_date data - current_time rt o <= 60)%Z
    /\ ((0 < max_age o)%Z -> (current_time rt o - auth_date data <= max_age o)%Z)
    /\ (requireUser o = true -> user data <> None)
    /\ (forall j, user data = Some j -> json_truthy j = true).
Proof.
  unfold verifyTelegramInitData.
  destruct (verify_signature rt d t) as [[e m]|[[[params h] dcs] rs]] eqn:S;
    [discriminate|].
  destruct (verify_freshness rt o params) as [[e m]|a] eqn:F; [discriminate|].
  intros V.
  destruct (verify_signature_ok rt d t params h dcs rs S)
    as (tok & hm & Ht & Tt & C & Hp & G & _ & Hd & Hr & Hx).
  destruct (verify_freshness_ok rt o params a F) as [F1 F2].
  destruct (verify_fields_ok_inv rt o params a h dcs rs data V)
    as (Ha & Hh & Hdc & Hraw & _ & Hu & Hj).
  subst params. exists tok, hm.
  rewrite Ha, Hh, Hdc, Hraw.
  repeat split; auto.
Qed.

(** Witness for X20: the signed sample payload. *)
Lemma verify_accept_sound_witness :
  exists data,
    verifyTelegramInitData sample_rt (Init_string sample_payload) (Some sample_token)
      sample_options = Ok data
    /\ get (payload_params (Init_string sample_payload)) "hash" = Some (hash data).
Proof.
  remember (verifyTelegramInitData sample_rt (Init_string sample_payload)
              (Some sample_token) sample_options) as res eqn:E.
  assert (E' := E). vm_compute in E'.
  destruct res as [data|]; [|discriminate E'].
  exists data. split; [reflexivity|].
  destruct (verify_accept_sound _ _ _ _ data (eq_sym E)) as (tok & hm & _ & _ & _ & H & _).
  exact H.
Defined.

(** X21. [data.rawParams] has each key once, holding the value of the
    key's last entry in the payload, while [data.hash] (like the other
    named fields) comes from the first entry: for a payload with a repeated
    key the two can disagree. *)
Theorem rawParams_last_wins (rt : Runtime) (d : InitDataInput) (t : option string)
    (o : ValidationOptions) (data : TelegramInitData) :
  verifyTelegramInitData rt d t o = Ok data ->
  NoDup (map fst (rawParams data))
  /\ (forall k, get (rawParams data) k = last_get (payload_params d) k)
  /\ get (payload_params d) "hash" = Some (hash data).
Proof.
  unfold verifyTelegramInitData.
  destruct (verify_signature rt d t) as [[e m]|[[[params h] dcs] rs]] eqn:S;
    [discriminate|].
  destruct (verify_freshness rt o params) as [[e m]|a] eqn:F; [discriminate|].
  intros V.
  destruct (verify_signature_ok rt d t params h dcs rs S)
    as (tok & hm & _ & _ & _ & Hp & G & _).
  destruct (verify_fields_ok_inv rt o params a h dcs rs data V)
    as (_ & Hh & _ & _ & Hrp & _).
  destruct (fold_assoc_set params [] (NoDup_nil _)) as [N K].
  rewrite Hrp, Hh. subst params. split; [exact N|]. split; [|exact G].
  intros k. rewrite K. unfold last_get. now destruct (get (rev (payload_params d)) k).
Qed.

(** Witness for X21: a signed payload whose [query_id] appears twice. *)
Lemma rawParams_last_wins_witness :
  exists data,
    verifyTelegramInitData sample_rt (Init_string dup_payload) (Some sample_token)
      sample_options = Ok data
    /\ get (rawParams data) "query_id" = Some "second"
    /\ query_id data = Some "AAHdF6IQ".
Proof.
  remember (verifyTelegramInitData sample_rt (Init_string dup_payload)
              (Some sample_token) sample_options) as res eqn:E.
  assert (E' := E). vm_compute in E'.
  destruct res as [data|]; [|discriminate E'].
  injection E' as Ed.
  exists data. split; [reflexivity|].
  destruct (rawParams_last_wins _ _ _ _ data (eq_sym E)) as (_ & K & _).
  split; [rewrite K; vm_compute; reflexivity | rewrite Ed; reflexivity].
Defined.

